(** * Banking API BDD framework: HTTP client core, metrics, load runner and
      failure reporter.

    A shallow embedding of
    - [features/support/api/base_api.py] ([BaseAPI]) and its twins
      [features/support/clients/api_client.py], [support/clients/api_client.py]
      ([APIClient]): retry strategy, session reset, request tracking;
    - [features/environment.py]: the Behave hooks, the metrics dictionaries
      and [capture_failure_details];
    - [features/steps/common_steps.py], [features/steps/http_steps.py]:
      the metric updates done by the request steps;
    - [features/steps/performance_steps.py]: response-time assertions and the
      two concurrent load steps;
    - [features/support/api/accounts_api.py], [health_api.py] and the
      delegation methods of [features/support/clients/api_client.py];
    - [mask_sensitive_value] of [features/steps/common_steps.py].

    Python integers are [Z]; durations and other floats are rationals [Q]
    (no rounding is modelled); dictionaries with string keys are [gmap],
    with header names compared as they are written; raising is an explicit
    [Raise] result. One exchange of [requests] ends with the answer of the
    adapter: redirects are not followed, and the properties of calls are
    stated for servers that do not answer with a redirect status. *)

From Stdlib Require Import ZArith QArith List String Ascii Bool Lia Permutation.
From stdpp Require Import base gmap strings list.

Local Open Scope string_scope.
Local Open Scope Z_scope.
Local Open Scope list_scope.

(** ** Python results and exceptions *)

(** Exceptions that the modelled code can raise or let through. *)
Inductive exn : Type :=
| ZeroDivisionError
| ValueError (msg : string)
| AttributeError (msg : string)
| KeyError (msg : string)
| AssertionError (msg : string)
| OSError (msg : string)
| ConnectionError
| ConnectTimeout
| ReadTimeout
| RetryError (status : Z).

Inductive result (A : Type) : Type :=
| Ok (a : A)
| Raise (e : exn).
Arguments Ok {A} a.
Arguments Raise {A} e.

#[global] Instance result_ret : MRet result := fun A a => Ok a.

#[global] Instance result_bind : MBind result := fun A B k r =>
  match r with
  | Ok a => k a
  | Raise e => Raise e
  end.

(** [requests.exceptions.RequestException] and its subclasses. *)
Definition is_RequestException (e : exn) : bool :=
  match e with
  | ConnectionError | ConnectTimeout | ReadTimeout | RetryError _ => true
  | _ => false
  end.

(** Python's true division [a / b] with a float result: [ZeroDivisionError]
    on a zero divisor. *)
Definition py_div (a b : Q) : result Q :=
  if Qeq_bool b 0 then Raise ZeroDivisionError else Ok (a / b)%Q.

(** ** Strings *)

Definition upper_ascii (c : ascii) : ascii :=
  let n := nat_of_ascii c in
  if (Nat.leb 97 n && Nat.leb n 122)%bool then ascii_of_nat (n - 32) else c.

(** [str.upper()] on ASCII text. *)
Fixpoint upper (s : string) : string :=
  match s with
  | EmptyString => EmptyString
  | String c s' => String (upper_ascii c) (upper s')
  end.

(** [s.lstrip('/')] *)
Fixpoint lstrip_slash (s : string) : string :=
  match s with
  | String "/"%char s' => lstrip_slash s'
  | _ => s
  end.

Definition string_rev (s : string) : string :=
  string_of_list_ascii (List.rev (list_ascii_of_string s)).

(** [s.rstrip('/')] *)
Definition rstrip_slash (s : string) : string :=
  string_rev (lstrip_slash (string_rev s)).

(** [x in l] for a list of strings. *)
Definition str_in (x : string) (l : list string) : bool :=
  existsb (String.eqb x) l.

(** [x in l] for a list of integers. *)
Definition int_in (x : Z) (l : list Z) : bool :=
  existsb (Z.eqb x) l.

(** [d.update(other)]: the keys of [other] win. *)
Definition dict_update (d other : gmap string string) : gmap string string :=
  other ∪ d.

(** ** The wire: what one network attempt can produce *)

Record Response : Type := mkResponse {
  status_code : Z;
  resp_headers : gmap string string;
  text : string;
  resp_url : string
}.

(** [requests.Response.__bool__] is [self.ok]: [raise_for_status] raises
    for a status from 400 to 599, and such a response is falsy. *)
Definition response_truthy (r : Response) : bool :=
  negb ((400 <=? status_code r) && (status_code r <? 600)).

(** [requests.models.REDIRECT_STATI] *)
Definition REDIRECT_STATI : list Z := [301; 302; 303; 307; 308].

(** A response on whose status [Session.request] goes on to another
    request when it carries a Location header ([Response.is_redirect]). *)
Definition redirect_status (r : Response) : bool :=
  int_in (status_code r) REDIRECT_STATI.

(** Low-level failures of one attempt, as [urllib3] classes them. The first
    two happen before the request reaches the server
    ([Retry._is_connection_error]), the next two after it was sent
    ([Retry._is_read_error]); [SSLError] stands for the errors that are in
    neither class. *)
Inductive net_error : Type :=
| ConnectTimeoutError
| NewConnectionError
| ReadTimeoutError
| ProtocolError
| SSLError.

Inductive attempt : Type :=
| Answer (r : Response)
| Fails (e : net_error).

(** The request as it leaves the session. *)
Record PreparedRequest : Type := mkPrepared {
  p_method : string;
  p_url : string;
  p_headers : gmap string string
}.

(** The remote side and the clock: what the [n]-th attempt (from 0) of a
    prepared request yields, and the wall time [time.time() - start_time]
    the caller measures around the call. *)
Record Network : Type := mkNetwork {
  serve : PreparedRequest -> nat -> attempt;
  elapsed : Q
}.

(** ** [urllib3.util.retry.Retry] as configured by the clients

    The clients only build a [Retry] object and mount it; the retry loop is
    the library's. Its documented behaviour is transcribed here: [connect],
    [redirect], [status] and [other] keep their default [None] everywhere,
    so [total] and [read] are the only counters. The adapter of [requests]
    calls the loop with [redirect=False]. *)
Module Urllib3.

(** A per-category counter: [None], [False] or a number. *)
Inductive counter : Type :=
| Unset
| Disabled
| Count (n : Z).

Record Retry : Type := mkRetry {
  total : Z;
  read : counter;
  status_forcelist : list Z;
  allowed_methods : list string;
  backoff_factor : Z;
  raise_on_status : bool;
  respect_retry_after_header : bool
}.

Definition with_counts (r : Retry) (t : Z) (rd : counter) : Retry :=
  mkRetry t rd (status_forcelist r) (allowed_methods r) (backoff_factor r)
    (raise_on_status r) (respect_retry_after_header r).

Definition decrement (c : counter) : counter :=
  match c with
  | Count n => Count (n - 1)
  | _ => c
  end.

Definition RETRY_AFTER_STATUS_CODES : list Z := [413; 429; 503].

Inductive reason : Type :=
| ReasonError (e : net_error)
| ResponseError (status : Z).

Inductive urllib3_exc : Type :=
| Reraised (e : net_error)
| MaxRetryError (why : reason).

(** [Retry._is_connection_error]: the server did not receive the request. *)
Definition _is_connection_error (e : net_error) : bool :=
  match e with
  | ConnectTimeoutError | NewConnectionError => true
  | _ => false
  end.

(** [Retry._is_read_error]: the request had been started. *)
Definition _is_read_error (e : net_error) : bool :=
  match e with
  | ReadTimeoutError | ProtocolError => true
  | _ => false
  end.

(** [Retry._is_method_retryable] *)
Definition _is_method_retryable (r : Retry) (method : string) : bool :=
  match allowed_methods r with
  | [] => true
  | _ => str_in (upper method) (allowed_methods r)
  end.

(** [Retry.is_retry(method, status_code, has_retry_after)] *)
Definition is_retry (r : Retry) (method : string) (status : Z)
    (has_retry_after : bool) : bool :=
  if negb (_is_method_retryable r method) then false
  else if int_in status (status_forcelist r) then true
  else negb (total r =? 0) && respect_retry_after_header r
       && has_retry_after && int_in status RETRY_AFTER_STATUS_CODES.

(** [Retry.is_exhausted]: the counters that are neither [None] nor [0] are
    collected, and the object is exhausted when their minimum is negative. *)
Definition is_exhausted (r : Retry) : bool :=
  let retry_counts :=
    (if total r =? 0 then [] else [total r])
    ++ match read r with
       | Count n => if n =? 0 then [] else [n]
       | _ => []
       end in
  match retry_counts with
  | [] => false
  | x :: rest => fold_right Z.min x rest <? 0
  end.

(** [Retry.increment(method, url, response=..., error=...)] *)
Definition increment (r : Retry) (method : string) (o : attempt)
    : urllib3_exc + Retry :=
  let finish (new_retry : Retry) (why : reason) :=
    if is_exhausted new_retry then inl (MaxRetryError why) else inr new_retry in
  let t := total r - 1 in
  match o with
  | Fails e =>
      if _is_connection_error e then
        finish (with_counts r t (read r)) (ReasonError e)
      else if _is_read_error e then
        match read r with
        | Disabled => inl (Reraised e)
        | rd =>
            if negb (_is_method_retryable r method) then inl (Reraised e)
            else finish (with_counts r t (decrement rd)) (ReasonError e)
        end
      else finish (with_counts r t (read r)) (ReasonError e)
  | Answer resp =>
      finish (with_counts r t (read r)) (ResponseError (status_code resp))
  end.

Definition has_retry_after (resp : Response) : bool :=
  match resp_headers resp !! "Retry-After" with
  | Some v => negb (String.eqb v "")
  | None => false
  end.

(** [HTTPConnectionPool.urlopen]: the attempt loop. [n] counts the attempts
    already made; the result carries the number of attempts made in all.
    The back-off sleep between two attempts takes time only and is part of
    the [elapsed] reading of the caller. *)
Fixpoint urlopen (fuel : nat) (server : nat -> attempt) (method : string)
    (retries : Retry) (n : nat) : option (urllib3_exc + Response) * nat :=
  match fuel with
  | O => (None, n)
  | S fuel' =>
      match server n with
      | Fails e =>
          match increment retries method (Fails e) with
          | inl exc => (Some (inl exc), S n)
          | inr retries' => urlopen fuel' server method retries' (S n)
          end
      | Answer resp =>
          if is_retry retries method (status_code resp) (has_retry_after resp)
          then
            match increment retries method (Answer resp) with
            | inl exc =>
                if raise_on_status retries then (Some (inl exc), S n)
                else (Some (inr resp), S n)
            | inr retries' => urlopen fuel' server method retries' (S n)
            end
          else (Some (inr resp), S n)
      end
  end.

(** Every retry lowers a non-negative [total] by one, so this many rounds
    are enough (see [urlopen_fuel_enough]). *)
Definition fuel_for (r : Retry) : nat := S (Z.to_nat (total r)).

End Urllib3.

(** ** [requests]: session, adapter and exception translation *)
Module Requests.

Record Session : Type := mkSession {
  headers : gmap string string;
  max_retries : Urllib3.Retry
}.

(** [requests.utils.default_headers()] *)
Definition default_headers : gmap string string :=
  {[ "User-Agent" := "python-requests";
     "Accept-Encoding" := "gzip, deflate";
     "Accept" := "*/*";
     "Connection" := "keep-alive" ]}.

(** [HTTPAdapter()] without arguments: [Retry(0, read=False)]; a response
    is never retried on its status. *)
Definition DEFAULT_RETRIES : Urllib3.Retry :=
  Urllib3.mkRetry 0 Urllib3.Disabled []
    ["DELETE"; "GET"; "HEAD"; "OPTIONS"; "PUT"; "TRACE"] 0 true true.

(** [requests.Session()] *)
Definition new_session : Session := mkSession default_headers DEFAULT_RETRIES.

(** [session.mount(prefix, HTTPAdapter(max_retries=r))] for both prefixes. *)
Definition mount (s : Session) (r : Urllib3.Retry) : Session :=
  mkSession (headers s) r.

(** The [except] clauses of [HTTPAdapter.send]. *)
Definition translate (exc : Urllib3.urllib3_exc) : exn :=
  (* requests.exceptions.SSLError is a ConnectionError *)
  match exc with
  | Urllib3.MaxRetryError (Urllib3.ReasonError ConnectTimeoutError) =>
      ConnectTimeout
  | Urllib3.MaxRetryError (Urllib3.ResponseError st) => RetryError st
  | Urllib3.MaxRetryError (Urllib3.ReasonError _) => ConnectionError
  | Urllib3.Reraised ReadTimeoutError => ReadTimeout
  | Urllib3.Reraised _ => ConnectionError
  end.

(** Outcome of one [session.request]: what the caller gets, and how many
    network attempts were made for it. *)
Record Exchange : Type := mkExchange {
  returned : result Response;
  attempts : nat
}.

(** [HTTPAdapter.send]: [conn.urlopen(..., retries=self.max_retries)]. *)
Definition send (r : Urllib3.Retry) (server : nat -> attempt)
    (method : string) : option Exchange :=
  match Urllib3.urlopen (Urllib3.fuel_for r) server method r 0 with
  | (None, _) => None
  | (Some (inr resp), n) => Some (mkExchange (Ok resp) n)
  | (Some (inl exc), n) => Some (mkExchange (Raise (translate exc)) n)
  end.

(** Request-level headers are merged over the session's
    ([merge_setting]). *)
Definition prepare (s : Session) (method url : string)
    (hdrs : gmap string string) : PreparedRequest :=
  mkPrepared (upper method) url (dict_update (headers s) hdrs).

(** [Session.request(method, url, headers=hdrs, ...)] for an exchange
    without redirect: the answer that the adapter returns is the result.
    When that answer has a status of [REDIRECT_STATI] and a Location header
    the library goes on to a further request; this is not modelled, and the
    properties of calls are stated for answers that are not redirects. *)
Definition request (s : Session) (net : Network) (method url : string)
    (hdrs : gmap string string) : option Exchange :=
  send (max_retries s) (serve net (prepare s method url hdrs)) method.

(** The module-level [requests.get(url, headers=hdrs, ...)] and
    [requests.post]: a fresh session with the default adapter, whose
    [Retry(0, read=False)] allows no second attempt (see
    [api_is_request]). As for [request], a redirect is not followed. *)
Definition api (net : Network) (method url : string)
    (hdrs : gmap string string) : Exchange :=
  match serve net (prepare new_session method url hdrs) 0%nat with
  | Answer resp => mkExchange (Ok resp) 1
  | Fails e =>
      mkExchange
        (Raise (translate
                  (if Urllib3._is_read_error e
                   then Urllib3.Reraised e
                   else Urllib3.MaxRetryError (Urllib3.ReasonError e)))) 1
  end.

End Requests.

(** ** [BaseAPI] / [APIClient]: the HTTP client core

    [features/support/api/base_api.py]; the two [APIClient] classes repeat
    these methods line by line ([support/clients/api_client.py] spells the
    [allowed_methods] argument with its older name [method_whitelist]). *)
Module Api.

(** The keyword arguments a caller can pass on to [session.request]. JSON
    and form payloads are flat string dictionaries. *)
Record Kwargs : Type := mkKwargs {
  kw_headers : option (gmap string string);
  kw_timeout : option Z;
  kw_params : option (gmap string string);
  kw_json : option (gmap string string);
  kw_data : option (gmap string string)
}.

Definition no_kwargs : Kwargs := mkKwargs None None None None None.

(** The dictionary stored in [self.last_request]. *)
Record RequestRecord : Type := mkRequestRecord {
  rq_method : string;
  rq_url : string;
  rq_kwargs : Kwargs
}.

Record BaseAPI : Type := mkBaseAPI {
  base_url : string;
  auth_token : string;
  timeout : Z;
  retry_count : Z;
  session : Requests.Session;
  last_request : option RequestRecord;
  last_response : option Response;
  last_response_time : option Q
}.

Definition set_session (c : BaseAPI) (s : Requests.Session) : BaseAPI :=
  mkBaseAPI (base_url c) (auth_token c) (timeout c) (retry_count c) s
    (last_request c) (last_response c) (last_response_time c).

Definition set_last_request (c : BaseAPI) (rq : RequestRecord) : BaseAPI :=
  mkBaseAPI (base_url c) (auth_token c) (timeout c) (retry_count c)
    (session c) (Some rq) (last_response c) (last_response_time c).

Definition set_last_response (c : BaseAPI) (r : Response) (t : Q) : BaseAPI :=
  mkBaseAPI (base_url c) (auth_token c) (timeout c) (retry_count c)
    (session c) (last_request c) (Some r) (Some t).

(** The [Retry(...)] object of [_setup_retry_strategy]; [read],
    [raise_on_status] and [respect_retry_after_header] are not passed and
    keep the library defaults [None], [True] and [True]. *)
Definition retry_strategy (retry_count : Z) : Urllib3.Retry :=
  Urllib3.mkRetry retry_count Urllib3.Unset [429; 500; 502; 503; 504]
    ["HEAD"; "GET"; "PUT"; "DELETE"; "OPTIONS"; "TRACE"] 1 true true.

Definition _setup_retry_strategy (c : BaseAPI) : BaseAPI :=
  set_session c (Requests.mount (session c) (retry_strategy (retry_count c))).

(** [__init__(base_url, auth_token, timeout=30, retry_count=3)] *)
Definition init (base_url auth_token : string) (timeout retry_count : Z)
    : BaseAPI :=
  _setup_retry_strategy
    (mkBaseAPI (rstrip_slash base_url) auth_token timeout retry_count
       Requests.new_session None None None).

Definition init_default (base_url auth_token : string) : BaseAPI :=
  init base_url auth_token 30 3.

Definition _get_default_headers (c : BaseAPI) : gmap string string :=
  {[ "Content-Type" := "application/json";
     "Accept" := "application/json";
     "Authorization" := "Bearer " +:+ auth_token c;
     "User-Agent" := "Banking-API-BDD-Tests/1.0" ]}.

Definition set_correlation_id (c : BaseAPI) (correlation_id : string)
    : BaseAPI :=
  set_session c
    (Requests.mkSession
       (dict_update (Requests.headers (session c))
          {[ "X-Correlation-Id" := correlation_id ]})
       (Requests.max_retries (session c))).

(** [self.session.headers.clear()] then [.update(self._get_default_headers())] *)
Definition reset_session (c : BaseAPI) : BaseAPI :=
  set_session c
    (Requests.mkSession (dict_update ∅ (_get_default_headers c))
       (Requests.max_retries (session c))).

(** [urljoin(self.base_url + '/', endpoint.lstrip('/'))] for a relative
    path: the path is appended to the base. *)
Definition _build_url (c : BaseAPI) (endpoint : string) : string :=
  base_url c +:+ "/" +:+ lstrip_slash endpoint.

(** Truth value of an optional dictionary, as in [if kwargs.get('headers')]. *)
Definition dict_truthy (d : option (gmap string string)) : bool :=
  match d with
  | Some m => negb (bool_decide (m = ∅))
  | None => false
  end.

(** The keyword arguments after the header merge and [setdefault('timeout')]. *)
Definition merged_kwargs (c : BaseAPI) (kwargs : Kwargs) : Kwargs :=
  let headers := _get_default_headers c in
  let headers :=
    match kw_headers kwargs with
    | Some h => if dict_truthy (Some h) then dict_update headers h else headers
    | None => headers
    end in
  mkKwargs (Some headers)
    (match kw_timeout kwargs with Some t => Some t | None => Some (timeout c) end)
    (kw_params kwargs) (kw_json kwargs) (kw_data kwargs).

(** [kwargs['headers']], or nothing when the key is missing. *)
Definition headers_of (kwargs : Kwargs) : gmap string string :=
  default ∅ (kw_headers kwargs).

(** The headers that [_make_request] passes to the session. *)
Definition request_headers (c : BaseAPI) (kwargs : Kwargs)
    : gmap string string :=
  headers_of (merged_kwargs c kwargs).

(** The request that [_make_request] puts on the wire. *)
Definition wire_request (c : BaseAPI) (method endpoint : string)
    (kwargs : Kwargs) : PreparedRequest :=
  Requests.prepare (session c) method (_build_url c endpoint)
    (request_headers c kwargs).

(** What [_make_request] leaves behind: the client afterwards, the value
    returned or the exception raised, and the attempts made on the wire. *)
Record Outcome : Type := mkOutcome {
  client : BaseAPI;
  value : result Response;
  wire_attempts : nat
}.

(** [_make_request(method, endpoint, **kwargs)]. Logging has no effect on
    the client and is left out. [None] only if the retry loop ran out of
    fuel, which [make_request_returns] excludes. *)
Definition _make_request (c : BaseAPI) (net : Network) (method endpoint : string)
    (kwargs : Kwargs) : option Outcome :=
  let url := _build_url c endpoint in
  let kwargs := merged_kwargs c kwargs in
  let c := set_last_request c (mkRequestRecord method url kwargs) in
  match Requests.request (session c) net method url (headers_of kwargs) with
  | None => None
  | Some ex =>
      match Requests.returned ex with
      | Ok response =>
          let response_time := elapsed net in
          Some (mkOutcome (set_last_response c response response_time)
                  (Ok response) (Requests.attempts ex))
      | Raise e => Some (mkOutcome c (Raise e) (Requests.attempts ex))
      end
  end.

Definition with_payload (kwargs : Kwargs)
    (data json_data : option (gmap string string)) : Kwargs :=
  if dict_truthy json_data then
    mkKwargs (kw_headers kwargs) (kw_timeout kwargs) (kw_params kwargs)
      json_data (kw_data kwargs)
  else if dict_truthy data then
    mkKwargs (kw_headers kwargs) (kw_timeout kwargs) (kw_params kwargs)
      (kw_json kwargs) data
  else kwargs.

Definition get (c : BaseAPI) (net : Network) (endpoint : string)
    (params : option (gmap string string)) (kwargs : Kwargs) : option Outcome :=
  let kwargs :=
    if dict_truthy params then
      mkKwargs (kw_headers kwargs) (kw_timeout kwargs) params
        (kw_json kwargs) (kw_data kwargs)
    else kwargs in
  _make_request c net "GET" endpoint kwargs.

Definition post (c : BaseAPI) (net : Network) (endpoint : string)
    (data json_data : option (gmap string string)) (kwargs : Kwargs)
    : option Outcome :=
  _make_request c net "POST" endpoint (with_payload kwargs data json_data).

Definition put (c : BaseAPI) (net : Network) (endpoint : string)
    (data json_data : option (gmap string string)) (kwargs : Kwargs)
    : option Outcome :=
  _make_request c net "PUT" endpoint (with_payload kwargs data json_data).

Definition delete (c : BaseAPI) (net : Network) (endpoint : string)
    (kwargs : Kwargs) : option Outcome :=
  _make_request c net "DELETE" endpoint kwargs.

Definition patch (c : BaseAPI) (net : Network) (endpoint : string)
    (data json_data : option (gmap string string)) (kwargs : Kwargs)
    : option Outcome :=
  _make_request c net "PATCH" endpoint (with_payload kwargs data json_data).


End Api.

(** ** Behave context, metrics dictionaries and the world outside

    [features/environment.py]. An attribute of [context] that the code
    tests with [hasattr] is an [option]; every read of [last_error],
    [response] and [failure_files] is of the form [hasattr(...) and value],
    so an attribute holding [None] and a missing one are the same [None]
    here. *)
Module Env.

Inductive Status : Type :=
| passed | failed | skipped | untested | undefined | executing.

Definition status_name (s : Status) : string :=
  match s with
  | passed => "passed" | failed => "failed" | skipped => "skipped"
  | untested => "untested" | undefined => "undefined"
  | executing => "executing"
  end.

(** [scenario.status == 'passed'] compares the status name. *)
Definition status_is (s : Status) (name : string) : bool :=
  String.eqb (status_name s) name.

Record ExcInfo : Type := mkExcInfo {
  exc_type : string;
  exc_message : string;
  exc_traceback : list string
}.

Record Scenario : Type := mkScenario {
  name : string;
  feature_name : string;
  location : string;
  tags : list string;
  status : Status;
  exception : option ExcInfo
}.

(** [context.test_metrics] *)
Record TestMetrics : Type := mkTestMetrics {
  t_start_time : Q;
  total_scenarios : Z;
  passed_scenarios : Z;
  failed_scenarios : Z;
  skipped_scenarios : Z;
  t_api_calls : Z;
  t_total_response_time : Q
}.

(** [context.scenario_metrics] *)
Record ScenarioMetrics : Type := mkScenarioMetrics {
  s_start_time : Q;
  s_api_calls : Z;
  s_total_response_time : Q;
  errors : list string
}.

(** A response object as the hooks see it: reading an attribute may
    raise. *)
Record ResponseObj : Type := mkResponseObj {
  ro_truthy : bool;
  ro_status_code : result Z;
  ro_headers : result (gmap string string);
  ro_url : result string;
  ro_text : result string
}.

(** A response received by [requests]. *)
Definition of_response (r : Response) : ResponseObj :=
  mkResponseObj (response_truthy r) (Ok (status_code r))
    (Ok (resp_headers r)) (Ok (resp_url r)) (Ok (text r)).

(** Pieces of a formatted line: text, [{x}] of an integer, [{x:.3f}] and
    [{x:.0f}] of a float, a date or duration, a dictionary, a list. *)
Inductive cell : Type :=
| Txt (s : string)
| Int (z : Z)
| Fix3 (q : Q)
| Fix0 (q : Q)
| Time (q : Q)
| Dict (d : gmap string string)
| Lst (l : list string).

Definition line : Type := list cell.

Record ApiResponse : Type := mkApiResponse {
  ar_status_code : Z;
  ar_headers : gmap string string;
  ar_url : string;
  ar_body : string
}.

Record EnvDetails : Type := mkEnvDetails {
  ed_base_url : string;
  ed_test_environment : string;
  ed_working_directory : string
}.

(** The dictionary [failure_details]: the Failure Record. *)
Record FailureDetails : Type := mkFailureDetails {
  fd_timestamp : Q;
  fd_scenario : string;
  fd_feature : string;
  fd_location : string;
  fd_duration : Q;
  fd_tags : list string;
  fd_status : string;
  fd_exception : option ExcInfo;
  fd_last_error : option string;
  fd_api_response : option ApiResponse;
  fd_api_response_error : option string;
  fd_metrics : option ScenarioMetrics;
  fd_environment : EnvDetails
}.

Record Context : Type := mkContext {
  logger : option (list line);
  ctx_base_url : option string;
  auth_headers : gmap string string;
  test_metrics : option TestMetrics;
  scenario_metrics : option ScenarioMetrics;
  scenario_start_time : option Q;
  last_error : option string;
  response : option ResponseObj;
  failure_files : option (list string)
}.

(** The process environment, the clock and the file system. [captured]
    lists the Failure Records built so far (most recent first); it is the
    only field that is not the program's own data. *)
Record World : Type := mkWorld {
  clock : Q;
  clock_text : string;
  makedirs_result : result unit;
  open_result : result unit;
  cwd : string;
  environ : gmap string string;
  files : gmap string (list line);
  captured : list FailureDetails
}.

Definition St : Type := Context * World.

(** A hook or step: it returns or raises, and leaves a state either way. *)
Definition Run : Type := result unit * St.

Definition empty_context : Context :=
  mkContext None None ∅ None None None None None None.

(** *** Field updates *)

Definition set_logger (c : Context) (l : option (list line)) : Context :=
  mkContext l (ctx_base_url c) (auth_headers c) (test_metrics c)
    (scenario_metrics c) (scenario_start_time c) (last_error c) (response c)
    (failure_files c).

Definition set_test_metrics (c : Context) (m : option TestMetrics) : Context :=
  mkContext (logger c) (ctx_base_url c) (auth_headers c) m
    (scenario_metrics c) (scenario_start_time c) (last_error c) (response c)
    (failure_files c).

Definition set_scenario_metrics (c : Context) (m : option ScenarioMetrics)
    : Context :=
  mkContext (logger c) (ctx_base_url c) (auth_headers c) (test_metrics c)
    m (scenario_start_time c) (last_error c) (response c) (failure_files c).

Definition set_scenario_start_time (c : Context) (t : option Q) : Context :=
  mkContext (logger c) (ctx_base_url c) (auth_headers c) (test_metrics c)
    (scenario_metrics c) t (last_error c) (response c) (failure_files c).

Definition set_last_error (c : Context) (e : option string) : Context :=
  mkContext (logger c) (ctx_base_url c) (auth_headers c) (test_metrics c)
    (scenario_metrics c) (scenario_start_time c) e (response c)
    (failure_files c).

Definition set_response (c : Context) (r : option ResponseObj) : Context :=
  mkContext (logger c) (ctx_base_url c) (auth_headers c) (test_metrics c)
    (scenario_metrics c) (scenario_start_time c) (last_error c) r
    (failure_files c).

Definition set_failure_files (c : Context) (f : option (list string))
    : Context :=
  mkContext (logger c) (ctx_base_url c) (auth_headers c) (test_metrics c)
    (scenario_metrics c) (scenario_start_time c) (last_error c) (response c) f.

Definition set_files (w : World) (f : gmap string (list line)) : World :=
  mkWorld (clock w) (clock_text w) (makedirs_result w) (open_result w) (cwd w)
    (environ w) f (captured w).

Definition set_captured (w : World) (l : list FailureDetails) : World :=
  mkWorld (clock w) (clock_text w) (makedirs_result w) (open_result w) (cwd w)
    (environ w) (files w) l.

(** [context.logger.info(...)] and the other levels: [AttributeError] when
    the context has no logger. Banner lines are not recorded. *)
Definition log (c : Context) (l : line) : result Context :=
  match logger c with
  | Some ls => Ok (set_logger c (Some (ls ++ [l])))
  | None => Raise (AttributeError "logger")
  end.

(** Truth value of a string attribute. *)
Definition str_truthy (s : option string) : bool :=
  match s with
  | Some v => negb (String.eqb v "")
  | None => false
  end.

Definition Qgtb (a b : Q) : bool := negb (Qle_bool a b).

(** [max(n, 1)] as the divisor of a float division. *)
Definition max1 (n : Z) : Q := inject_Z (Z.max n 1).

(** *** Hooks and steps as state transformers that may raise *)

Definition M (A : Type) : Type := St -> result A * St.

Definition ret {A : Type} (a : A) : M A := fun st => (Ok a, st).

Definition raise {A : Type} (e : exn) : M A := fun st => (Raise e, st).

Definition bind {A B : Type} (m : M A) (k : A -> M B) : M B :=
  fun st =>
    match m st with
    | (Ok a, st') => k a st'
    | (Raise e, st') => (Raise e, st')
    end.

(** [try: body except Exception as e: handler(e)] *)
Definition try_except {A : Type} (body : M A) (handler : exn -> M A) : M A :=
  fun st =>
    match body st with
    | (Ok a, st') => (Ok a, st')
    | (Raise e, st') => handler e st'
    end.

#[global] Instance M_ret : MRet M := @ret.
#[global] Instance M_bind : MBind M := fun A B k m => bind m k.

Definition get_ctx : M Context := fun st => (Ok (fst st), st).
Definition get_world : M World := fun st => (Ok (snd st), st).
Definition put_ctx (c : Context) : M unit := fun st => (Ok tt, (c, snd st)).
Definition put_world (w : World) : M unit := fun st => (Ok tt, (fst st, w)).
Definition modify_ctx (f : Context -> Context) : M unit :=
  fun st => (Ok tt, (f (fst st), snd st)).

(** Lift a computation that only returns or raises. *)
Definition lift {A : Type} (r : result A) : M A := fun st => (r, st).

(** [context.<attr>] for an attribute that must exist. *)
Definition attr {A : Type} (field : Context -> option A) (what : string)
    : M A :=
  fun st =>
    match field (fst st) with
    | Some a => (Ok a, st)
    | None => (Raise (AttributeError what), st)
    end.

Definition logM (l : line) : M unit :=
  fun st =>
    match log (fst st) l with
    | Ok c => (Ok tt, (c, snd st))
    | Raise e => (Raise e, st)
    end.

Definition when (b : bool) (m : M unit) : M unit := if b then m else ret tt.

(** [str(e)] *)
Definition exn_text (e : exn) : string :=
  match e with
  | ZeroDivisionError => "division by zero"
  | ValueError m | AttributeError m | KeyError m | AssertionError m
  | OSError m => m
  | ConnectionError => "connection error"
  | ConnectTimeout => "connect timeout"
  | ReadTimeout => "read timeout"
  | RetryError _ => "too many error responses"
  end.

(** *** [capture_failure_details] *)

Definition isalnum (c : ascii) : bool :=
  let n := nat_of_ascii c in
  (Nat.leb 48 n && Nat.leb n 57) || (Nat.leb 65 n && Nat.leb n 90)
  || (Nat.leb 97 n && Nat.leb n 122).

Fixpoint map_string (f : ascii -> ascii) (s : string) : string :=
  match s with
  | EmptyString => EmptyString
  | String c s' => String (f c) (map_string f s')
  end.

Definition keep_safe (c : ascii) : ascii :=
  if isalnum c || Ascii.eqb c " " || Ascii.eqb c "-" || Ascii.eqb c "_"
  then c else "_"%char.

Definition space_to_underscore (c : ascii) : ascii :=
  if Ascii.eqb c " " then "_"%char else c.

Definition safe_scenario_name (scenario_name : string) : string :=
  substring 0 50 (map_string space_to_underscore
                    (map_string keep_safe scenario_name)).

Definition failure_file_name (sc : Scenario) (w : World) : string :=
  "logs/failures/FAILED_" +:+ safe_scenario_name (name sc) +:+ "_"
  +:+ clock_text w +:+ ".txt".

(** The dictionary literal of the [api_response] entry; any attribute read
    may raise. *)
Definition read_api_response (r : ResponseObj) : result ApiResponse :=
  sc ← ro_status_code r;
  h ← ro_headers r;
  u ← ro_url r;
  t ← ro_text r;
  Ok (mkApiResponse sc h u
        (if (2000 <? String.length t)%nat
         then substring 0 2000 t +:+ "..." else t)).

(** The [api_response] / [api_response_error] pair of entries. *)
Definition api_response_entries (c : Context)
    : option ApiResponse * option string :=
  match response c with
  | Some r =>
      if ro_truthy r then
        match read_api_response r with
        | Ok a => (Some a, None)
        | Raise e => (None, Some ("Could not capture response: " +:+ exn_text e))
        end
      else (None, None)
  | None => (None, None)
  end.

Definition environment_entry (c : Context) (w : World) : EnvDetails :=
  mkEnvDetails (default "Not set" (ctx_base_url c))
    (default "Not set" (environ w !! "TEST_ENVIRONMENT")) (cwd w).

(** Lines 64 to 107: collecting the record. *)
Definition failure_details (c : Context) (sc : Scenario)
    (end_time duration : Q) (w : World) : FailureDetails :=
  mkFailureDetails end_time (name sc) (feature_name sc) (location sc) duration
    (tags sc) (status_name (status sc)) (exception sc)
    (if str_truthy (last_error c) then last_error c else None)
    (fst (api_response_entries c)) (snd (api_response_entries c))
    (scenario_metrics c) (environment_entry c w).

Definition rule80 : line := [Txt "================================================================================"].
Definition rule40 : line := [Txt "----------------------------------------"].

(** The text written to the failure file, line by line. *)
Definition report (d : FailureDetails) : list line :=
  [ [Txt "[ERROR] BANKING API BDD FRAMEWORK - TEST FAILURE REPORT [ERROR]"];
    rule80;
    [Txt "[TIME] Failure Time: "; Time (fd_timestamp d)];
    [Txt "[TEST] Scenario: "; Txt (fd_scenario d)];
    [Txt "[FILE] Feature: "; Txt (fd_feature d)];
    [Txt "[LOCATION] Location: "; Txt (fd_location d)];
    [Txt "[TIME]  Duration: "; Time (fd_duration d)];
    [Txt "[TAGS]  Tags: ";
     match fd_tags d with [] => Txt "None" | ts => Lst ts end];
    [Txt "[INFO] Status: "; Txt (fd_status d)] ]
  ++ match fd_exception d with
     | Some e =>
         [ [Txt "[ERROR] EXCEPTION DETAILS:"]; rule40;
           [Txt "Type: "; Txt (exc_type e)];
           [Txt "Message: "; Txt (exc_message e)];
           [Txt "Traceback:"]; [Lst (exc_traceback e)] ]
     | None => []
     end
  ++ match fd_last_error d with
     | Some e => [ [Txt "[ERROR] Last Error: "; Txt e] ]
     | None => []
     end
  ++ match fd_api_response d with
     | Some a =>
         [ [Txt "[URL] API RESPONSE DETAILS:"]; rule40;
           [Txt "Status Code: "; Int (ar_status_code a)];
           [Txt "URL: "; Txt (ar_url a)];
           [Txt "Headers: "; Dict (ar_headers a)];
           [Txt "Response Body:"; Txt (ar_body a)] ]
     | None => []
     end
  ++ match fd_metrics d with
     | Some m =>
         [ [Txt "[INFO] SCENARIO METRICS:"]; rule40;
           [Txt "API Calls: "; Int (s_api_calls m)];
           [Txt "Total Response Time: "; Fix3 (s_total_response_time m)] ]
         ++ match errors m with
            | [] => []
            | es => [ [Txt "Errors: "; Lst es] ]
            end
     | None => []
     end
  ++ [ [Txt "[ENV] ENVIRONMENT DETAILS:"]; rule40;
       [Txt "Base URL: "; Txt (ed_base_url (fd_environment d))];
       [Txt "Test Environment: "; Txt (ed_test_environment (fd_environment d))];
       [Txt "Working Directory: "; Txt (ed_working_directory (fd_environment d))];
       rule80;
       [Txt "[BODY] This file contains detailed failure information for debugging."];
       [Txt "[VERIFY] Review the exception details and API response for troubleshooting."];
       rule80 ].

(** [os.makedirs('logs/failures', exist_ok=True)] *)
Definition makedirs : M unit := fun st => (makedirs_result (snd st), st).

(** [with open(failure_file, 'w') as f: f.write(...)] *)
Definition write_file (path : string) (content : list line) : M unit :=
  fun st =>
    match open_result (snd st) with
    | Ok _ => (Ok tt, (fst st, set_files (snd st) (<[path := content]> (files (snd st)))))
    | Raise e => (Raise e, st)
    end.

(** The ghost step that counts a Failure Record as built. *)
Definition note_captured (d : FailureDetails) : M unit :=
  fun st => (Ok tt, (fst st, set_captured (snd st) (d :: captured (snd st)))).

Definition capture_failure_details (sc : Scenario) (end_time duration : Q)
    : M unit :=
  _ ← makedirs;
  w ← get_world;
  let failure_file := failure_file_name sc w in
  c ← get_ctx;
  let details := failure_details c sc end_time duration w in
  _ ← note_captured details;
  try_except
    (_ ← write_file failure_file (report details);
     _ ← logM [Txt "[SAVE] Failure details saved to: "; Txt failure_file];
     modify_ctx (fun c =>
       set_failure_files c
         (Some (default [] (failure_files c) ++ [failure_file]))))
    (fun e => logM [Txt "[ERROR] Failed to save failure details: ";
                    Txt (exn_text e)]).

(** *** Averages derived from a metrics dictionary *)

(** [total_response_time / max(api_calls, 1)], the expression of
    [after_scenario] and [after_all]. *)
Definition average (total_response_time : Q) (api_calls : Z) : result Q :=
  py_div total_response_time (max1 api_calls).

(** The average lines of [after_scenario] and [after_all]: nothing is
    derived unless the accumulated time is positive. *)
Definition log_average (label : string) (total_response_time : Q)
    (api_calls : Z) : M unit :=
  when (Qgtb total_response_time 0)
    (avg_response_time ← lift (average total_response_time api_calls);
     _ ← logM [Txt label; Fix3 avg_response_time; Txt "s"];
     logM [Txt "[INFO] Total Response Time: "; Fix3 total_response_time;
           Txt "s"]).

(** *** [before_all] *)

Definition fresh_test_metrics (now : Q) : TestMetrics :=
  mkTestMetrics now 0 0 0 0 0 0.

Definition fresh_scenario_metrics (now : Q) : ScenarioMetrics :=
  mkScenarioMetrics now 0 0 [].

(** [setup_comprehensive_logging]: the log directory is created and a new
    logger installed. *)
Definition setup_comprehensive_logging : M unit :=
  _ ← makedirs;
  modify_ctx (fun c => set_logger c (Some [])).

Definition before_all : M unit :=
  _ ← setup_comprehensive_logging;
  _ ← logM [Txt "[FRAMEWORK] BANKING API BDD TEST FRAMEWORK - EXECUTION START"];
  _ ← makedirs;
  w ← get_world;
  let base := environ w !! "BASE_URL" in
  let auth_token := default "banking-api-key-2024" (environ w !! "AUTH_TOKEN") in
  _ ← modify_ctx (fun c =>
        mkContext (logger c) base (auth_headers c) (test_metrics c)
          (scenario_metrics c) (scenario_start_time c) (last_error c)
          (response c) (failure_files c));
  _ ← when (negb (str_truthy base))
        (raise (ValueError "BASE_URL not found in environment"));
  _ ← modify_ctx (fun c =>
        mkContext (logger c) (ctx_base_url c)
          {[ "Authorization" := "Bearer " +:+ auth_token;
             "Content-Type" := "application/json";
             "Accept" := "application/json";
             "X-Correlation-Id" := "test-" +:+ clock_text w ]}
          (test_metrics c) (scenario_metrics c) (scenario_start_time c)
          (last_error c) (response c) (failure_files c));
  _ ← modify_ctx (fun c =>
        set_test_metrics c (Some (fresh_test_metrics (clock w))));
  logM [Txt "[START] Framework initialization complete - Ready to execute tests"].

(** *** [before_scenario] *)

Definition bump_total_scenarios (m : TestMetrics) : TestMetrics :=
  mkTestMetrics (t_start_time m) (total_scenarios m + 1) (passed_scenarios m)
    (failed_scenarios m) (skipped_scenarios m) (t_api_calls m)
    (t_total_response_time m).

Definition bump_passed (m : TestMetrics) : TestMetrics :=
  mkTestMetrics (t_start_time m) (total_scenarios m) (passed_scenarios m + 1)
    (failed_scenarios m) (skipped_scenarios m) (t_api_calls m)
    (t_total_response_time m).

Definition bump_failed (m : TestMetrics) : TestMetrics :=
  mkTestMetrics (t_start_time m) (total_scenarios m) (passed_scenarios m)
    (failed_scenarios m + 1) (skipped_scenarios m) (t_api_calls m)
    (t_total_response_time m).

Definition bump_skipped (m : TestMetrics) : TestMetrics :=
  mkTestMetrics (t_start_time m) (total_scenarios m) (passed_scenarios m)
    (failed_scenarios m) (skipped_scenarios m + 1) (t_api_calls m)
    (t_total_response_time m).

(** [context.test_metrics[key] += 1] *)
Definition update_test_metrics (f : TestMetrics -> TestMetrics) : M unit :=
  fun st =>
    match test_metrics (fst st) with
    | Some m => (Ok tt, (set_test_metrics (fst st) (Some (f m)), snd st))
    | None => (Raise (AttributeError "test_metrics"), st)
    end.

Definition before_scenario (sc : Scenario) : M unit :=
  w ← get_world;
  let scenario_start_time := clock w in
  _ ← modify_ctx (fun c => set_scenario_start_time c (Some scenario_start_time));
  _ ← logM [Txt "[TEST] SCENARIO START: "; Txt (name sc)];
  _ ← logM [Txt "[FILE] Feature: "; Txt (feature_name sc)];
  _ ← logM [Txt "[LOCATION] Location: "; Txt (location sc)];
  _ ← logM [Txt "[TAGS]  Tags: ";
            match tags sc with [] => Txt "None" | ts => Lst ts end];
  _ ← logM [Txt "[TIME] Start Time: "; Time scenario_start_time];
  _ ← modify_ctx (fun c =>
        set_scenario_metrics c
          (Some (fresh_scenario_metrics scenario_start_time)));
  update_test_metrics bump_total_scenarios.

(** *** [after_scenario] *)

(** Lines 386 to 415: the closing report and the clean-up. *)
Definition after_scenario_report (sc : Scenario) (scenario_duration : Q)
    : M unit :=
  let status_text :=
    if status_is (status sc) "passed" then "[PASSED] PASSED"
    else "[FAILED] FAILED" in
  _ ← logM [Txt "SCENARIO COMPLETE: "; Txt (name sc)];
  _ ← logM [Txt "[INFO] Status: "; Txt status_text];
  _ ← logM [Txt "[TIME]  Duration: "; Time scenario_duration];
  m ← attr scenario_metrics "scenario_metrics";
  _ ← logM [Txt "[URL] API Calls Made: "; Int (s_api_calls m)];
  _ ← log_average "[PERFORMANCE] Avg Response Time: "
        (s_total_response_time m) (s_api_calls m);
  c ← get_ctx;
  _ ← when (str_truthy (last_error c))
        (logM [Txt "[ERROR] Last Error: "; Txt (default "" (last_error c))]);
  _ ← match response c with
      | Some r =>
          when (ro_truthy r)
            (code ← lift (ro_status_code r);
             _ ← logM [Txt "[URL] Final Response Status: "; Int code];
             match ro_headers r with
             | Ok h =>
                 logM [Txt "[VERIFY] Correlation ID: ";
                       Txt (default "Not Found" (h !! "X-Correlation-Id"))]
             | Raise _ => ret tt
             end)
      | None => ret tt
      end;
  modify_ctx (fun c => set_last_error (set_scenario_metrics c None) None).

Definition after_scenario (sc : Scenario) : M unit :=
  w ← get_world;
  let scenario_end_time := clock w in
  start ← attr scenario_start_time "scenario_start_time";
  let scenario_duration := (scenario_end_time - start)%Q in
  _ ← (if status_is (status sc) "passed" then
         update_test_metrics bump_passed
       else if status_is (status sc) "failed" then
         _ ← update_test_metrics bump_failed;
         capture_failure_details sc scenario_end_time scenario_duration
       else
         update_test_metrics bump_skipped);
  after_scenario_report sc scenario_duration.

(** *** [after_all] and [create_failure_summary] *)

Definition summary_file_name (w : World) : string :=
  "logs/failures/FAILURE_SUMMARY_" +:+ clock_text w +:+ ".txt".

Definition summary (end_time : Q) (failed_count : Z)
    (failure_files : list string) : list line :=
  [ [Txt "[ERROR] BANKING API BDD FRAMEWORK - FAILURE SUMMARY [ERROR]"];
    rule80;
    [Txt "[TIME] Summary Generated: "; Time end_time];
    [Txt "[FAILED] Total Failed Scenarios: "; Int failed_count];
    [Txt "[HEADERS] Individual Failure Files: ";
     Int (Z.of_nat (length failure_files))] ]
  ++ List.map (fun f => [Txt "    [BODY] Details: "; Txt f]) failure_files
  ++ [ rule80 ].

Definition create_failure_summary (end_time : Q) (failed_count : Z) : M unit :=
  w ← get_world;
  let summary_file := summary_file_name w in
  try_except
    (fs ← attr failure_files "failure_files";
     _ ← write_file summary_file (summary end_time failed_count fs);
     logM [Txt "[HEADERS] Failure summary created: "; Txt summary_file])
    (fun e => logM [Txt "[ERROR] Failed to create failure summary: ";
                    Txt (exn_text e)]).

(** [(passed / total_scenarios * 100) if total_scenarios > 0 else 0] *)
Definition pass_rate (m : TestMetrics) : result Q :=
  if 0 <? total_scenarios m then
    q ← py_div (inject_Z (passed_scenarios m)) (inject_Z (total_scenarios m));
    Ok (q * 100)%Q
  else Ok 0%Q.

Definition after_all : M unit :=
  w ← get_world;
  let end_time := clock w in
  m ← attr test_metrics "test_metrics";
  rate ← lift (pass_rate m);
  _ ← logM [Txt "[INFO] Total Scenarios: "; Int (total_scenarios m)];
  _ ← logM [Txt "[PASSED] Passed: "; Int (passed_scenarios m)];
  _ ← logM [Txt "[FAILED] Failed: "; Int (failed_scenarios m)];
  _ ← logM [Txt "[SKIPPED]  Skipped: "; Int (skipped_scenarios m)];
  _ ← logM [Txt "[PERFORMANCE] Pass Rate: "; Fix3 rate];
  _ ← logM [Txt "[URL] Total API Calls: "; Int (t_api_calls m)];
  _ ← log_average "[PERFORMANCE] Average Response Time: "
        (t_total_response_time m) (t_api_calls m);
  c ← get_ctx;
  _ ← when ((0 <? failed_scenarios m)
            && match failure_files c with
               | Some (_ :: _) => true
               | _ => false
               end)
        (create_failure_summary end_time (failed_scenarios m));
  logM [Txt "[TIME] End Time: "; Time end_time].

End Env.

(** ** Step definitions that touch the metrics

    [features/steps/common_steps.py], [http_steps.py],
    [environment_steps.py] and the two response-time assertions of
    [performance_steps.py]. *)
Module Steps.
Import Env.

Definition record_test_call (response_time : Q) (m : TestMetrics)
    : TestMetrics :=
  mkTestMetrics (t_start_time m) (total_scenarios m) (passed_scenarios m)
    (failed_scenarios m) (skipped_scenarios m) (t_api_calls m + 1)
    (t_total_response_time m + response_time)%Q.

Definition record_scenario_call (response_time : Q) (m : ScenarioMetrics)
    : ScenarioMetrics :=
  mkScenarioMetrics (s_start_time m) (s_api_calls m + 1)
    (s_total_response_time m + response_time)%Q (errors m).

(** [update_metrics(context, response_time)], also written out in every
    request step: first the run-level dictionary, then the scenario's. *)
Definition update_metrics (response_time : Q) : M unit :=
  _ ← modify_ctx (fun c =>
        match test_metrics c with
        | Some m => set_test_metrics c (Some (record_test_call response_time m))
        | None => c
        end);
  modify_ctx (fun c =>
    match scenario_metrics c with
    | Some m =>
        set_scenario_metrics c (Some (record_scenario_call response_time m))
    | None => c
    end).

Definition append_error (msg : string) (m : ScenarioMetrics) : ScenarioMetrics :=
  mkScenarioMetrics (s_start_time m) (s_api_calls m) (s_total_response_time m)
    (errors m ++ [msg]).

(** [capture_error_details(context, error_message)] *)
Definition capture_error_details (error_message : string) : M unit :=
  _ ← modify_ctx (fun c =>
        match scenario_metrics c with
        | Some m => set_scenario_metrics c (Some (append_error error_message m))
        | None => c
        end);
  modify_ctx (fun c => set_last_error c (Some error_message)).

(** The two [if not hasattr(...)] initialisations shared by
    [setup_fallback_logger] and [step_initialize_metrics]. *)
Definition init_metrics_if_missing : M unit :=
  w ← get_world;
  _ ← modify_ctx (fun c =>
        match test_metrics c with
        | Some _ => c
        | None => set_test_metrics c (Some (fresh_test_metrics (clock w)))
        end);
  modify_ctx (fun c =>
    match scenario_metrics c with
    | Some _ => c
    | None => set_scenario_metrics c (Some (fresh_scenario_metrics (clock w)))
    end).

(** [load_environment_config] of [common_steps.py], on the environment
    variables as they stand after the [.env] file was read. *)
Definition load_environment_config : M unit :=
  w ← get_world;
  let auth_token := default "banking-api-key-2024" (environ w !! "AUTH_TOKEN") in
  let auth_header := default "Authorization" (environ w !! "AUTH_HEADER") in
  let auth_prefix := default "Bearer" (environ w !! "AUTH_PREFIX") in
  let content_type :=
    default "application/json" (environ w !! "CONTENT_TYPE") in
  modify_ctx (fun c =>
    mkContext (logger c)
      (Some (default "http://localhost:8080" (environ w !! "BASE_URL")))
      (<["Content-Type" := content_type]>
         {[ auth_header := auth_prefix +:+ " " +:+ auth_token ]})
      (test_metrics c) (scenario_metrics c) (scenario_start_time c)
      (last_error c) (response c) (failure_files c)).

(** [setup_fallback_logger]: nothing happens when a logger is there. *)
Definition setup_fallback_logger : M unit :=
  c ← get_ctx;
  match logger c with
  | Some _ => ret tt
  | None =>
      _ ← load_environment_config;
      _ ← try_except makedirs (fun _ => ret tt);
      _ ← modify_ctx (fun c => set_logger c (Some []));
      _ ← init_metrics_if_missing;
      logM [Txt "[WARNING] Using fallback logger - environment.py hooks may not be working properly"]
  end.

(** The first lines of every step. *)
Definition ensure_logger : M unit :=
  c ← get_ctx;
  match logger c with
  | Some _ => ret tt
  | None => setup_fallback_logger
  end.

(** [step_initialize_metrics] *)
Definition step_initialize_metrics : M unit :=
  _ ← ensure_logger;
  _ ← logM [Txt "[METRICS] Initializing test metrics collection..."];
  _ ← init_metrics_if_missing;
  logM [Txt "[SUCCESS] Test metrics initialized"].

(** [step_reset_environment]: the scenario metrics start again, the run
    metrics are kept. *)
Definition step_reset_environment : M unit :=
  _ ← ensure_logger;
  _ ← logM [Txt "[ENV] Resetting test environment..."];
  _ ← modify_ctx (fun c => set_last_error (set_response c None) None);
  w ← get_world;
  _ ← modify_ctx (fun c =>
        match scenario_metrics c with
        | Some _ =>
            set_scenario_metrics c (Some (fresh_scenario_metrics (clock w)))
        | None => c
        end);
  logM [Txt "[SUCCESS] Test environment reset to clean state"].

(** [step_get_request]: one [requests.get], timed by the caller. *)
Definition step_get_request (net : Network) (endpoint : string) : M unit :=
  _ ← ensure_logger;
  base_url ← attr ctx_base_url "base_url";
  c ← get_ctx;
  let headers := auth_headers c in
  let full_url := rstrip_slash base_url +:+ endpoint in
  _ ← logM [Txt "[REQUEST] Sending GET request to: "; Txt endpoint];
  match Requests.returned (Requests.api net "GET" full_url headers) with
  | Ok resp =>
      let response_time := elapsed net in
      _ ← modify_ctx (fun c => set_response c (Some (of_response resp)));
      _ ← update_metrics response_time;
      _ ← logM [Txt "[RESPONSE] GET Response: "; Int (status_code resp)];
      _ ← logM [Txt "[TIME] Response Time: "; Fix3 response_time; Txt "s"];
      logM [Txt "[SUCCESS] GET request completed successfully"]
  | Raise e =>
      let last_error :=
        match e with
        | ConnectTimeout | ReadTimeout => "Request timeout"
        | _ => exn_text e
        end in
      let message :=
        match e with
        | ConnectTimeout | ReadTimeout =>
            "Request to " +:+ endpoint +:+ " timed out"
        | ConnectionError => "Connection error: " +:+ exn_text e
        | _ => "Request failed: " +:+ exn_text e
        end in
      _ ← logM [Txt "[ERROR] GET request failed: "; Txt (exn_text e)];
      _ ← modify_ctx (fun c => set_last_error (set_response c None)
                                 (Some last_error));
      raise (AssertionError message)
  end.

(** [step_assert_response_time]: the scenario average stands for the most
    recent call. *)
Definition step_assert_response_time (max_time : Z) : M unit :=
  _ ← ensure_logger;
  _ ← logM [Txt "[VERIFY] Verifying response time is under "; Int max_time;
            Txt "ms"];
  c ← get_ctx;
  match scenario_metrics c with
  | None =>
      logM [Txt "[WARNING] No response time data available - cannot verify timing"]
  | Some m =>
      if Qeq_bool (s_total_response_time m) 0 then
        logM [Txt "[WARNING] No response time data available - cannot verify timing"]
      else
        let total_time := s_total_response_time m in
        let api_calls := s_api_calls m in
        if 0 <? api_calls then
          q ← lift (py_div total_time (inject_Z api_calls));
          let recent_response_time_ms := (q * 1000)%Q in
          if Qle_bool recent_response_time_ms (inject_Z max_time) then
            logM [Txt "[SUCCESS] Response time assertion PASSED: ";
                  Fix0 recent_response_time_ms]
          else
            _ ← logM [Txt "[ERROR] Response time assertion FAILED: ";
                      Fix0 recent_response_time_ms];
            _ ← capture_error_details "Response time assertion failed";
            raise (AssertionError "Response time exceeds limit")
        else
          logM [Txt "[WARNING] No API calls recorded - cannot verify response time"]
  end.

(** [step_assert_average_response_time] *)
Definition step_assert_average_response_time (max_time : Z) : M unit :=
  _ ← ensure_logger;
  _ ← logM [Txt "[VERIFY] Verifying average response time is under ";
            Int max_time; Txt "ms"];
  c ← get_ctx;
  match scenario_metrics c with
  | None =>
      logM [Txt "[WARNING] No API calls recorded - cannot verify average response time"]
  | Some m =>
      if s_api_calls m =? 0 then
        logM [Txt "[WARNING] No API calls recorded - cannot verify average response time"]
      else
        let total_time := s_total_response_time m in
        let api_calls := s_api_calls m in
        q ← lift (py_div total_time (inject_Z api_calls));
        let average_response_time_ms := (q * 1000)%Q in
        if Qle_bool average_response_time_ms (inject_Z max_time) then
          logM [Txt "[SUCCESS] Average response time assertion PASSED: ";
                Fix0 average_response_time_ms]
        else
          _ ← logM [Txt "[ERROR] Average response time assertion FAILED: ";
                    Fix0 average_response_time_ms];
          _ ← capture_error_details "Average response time assertion failed";
          raise (AssertionError "Average response time exceeds limit")
  end.

End Steps.

(** ** The concurrent load steps of [performance_steps.py] *)
Module Load.
Import Env.

(** One entry of [results] in [step_concurrent_requests_to_endpoint]. *)
Record RequestResult : Type := mkRequestResult {
  request_id : Z;
  rr_status_code : Z;
  rr_response_time : Q;
  success : bool;
  error : option string
}.

(** [context.concurrent_results] *)
Record ConcurrentResults : Type := mkConcurrentResults {
  results : list RequestResult;
  total_time : Q;
  requests_per_second : Q;
  success_count : Z;
  failure_count : Z;
  average_response_time : Q
}.

(** One entry of [results] in [step_create_multiple_resources]. *)
Record ResourceResult : Type := mkResourceResult {
  pr_status_code : Z;
  pr_response_time : Q;
  pr_correlation_id : string
}.

(** [context.performance_results] *)
Record PerformanceResults : Type := mkPerformanceResults {
  p_results : list ResourceResult;
  p_total_time : Q;
  p_requests_per_second : Q;
  p_success_count : Z;
  p_failure_count : Z
}.

(** An element of [context.performance_data]. *)
Record DataItem : Type := mkDataItem {
  account : option (gmap string string);
  customer : option (gmap string string);
  booking : option (gmap string string);
  has_customerId : bool;
  has_accountType : bool;
  correlation_id : option string
}.

(** What a batch meets: the status or exception and the duration of the
    [requests.get] of each request id and of the [requests.post] of each
    item, the order in which [as_completed] hands the futures back, and the
    wall time of the whole batch. *)
Record Pool : Type := mkPool {
  fetch : Z -> result Z * Q;
  submit : string -> DataItem -> result Z * Q;
  as_completed : forall A : Type, list A -> list A;
  wall_time : Q
}.

(** [ThreadPoolExecutor(max_workers=n)] refuses [n <= 0]. *)
Definition ThreadPoolExecutor (max_workers : Z) : result unit :=
  if max_workers <=? 0 then
    Raise (ValueError "max_workers must be greater than 0")
  else Ok tt.

Definition is_2xx (status : Z) : bool := (200 <=? status) && (status <? 300).

(** [sum(1 for r in l if p(r))] *)
Definition count_if {A : Type} (p : A -> bool) (l : list A) : Z :=
  Z.of_nat (length (List.filter p l)).

(** [sum(f(r) for r in l)] over floats. *)
Definition sum_of {A : Type} (f : A -> Q) (l : list A) : Q :=
  fold_left (fun acc r => (acc + f r)%Q) l 0%Q.

(** [len(results) / total_time if total_time > 0 else 0] *)
Definition throughput (n : nat) (total_time : Q) : result Q :=
  if Qgtb total_time 0 then py_div (inject_Z (Z.of_nat n)) total_time
  else Ok 0%Q.

(** [range(count)] mapped to the request ids [i + 1]. *)
Definition request_ids (count : Z) : list Z :=
  List.map (fun i => Z.of_nat i + 1) (seq 0 (Z.to_nat count)).

(** The inner [make_request(request_id)]: an exception of the request is
    turned into a failed entry. *)
Definition make_request (pool : Pool) (request_id : Z) : RequestResult :=
  match fetch pool request_id with
  | (Ok status, t) => mkRequestResult request_id status t (is_2xx status) None
  | (Raise e, t) => mkRequestResult request_id 0 t false (Some (exn_text e))
  end.

(** [step_concurrent_requests_to_endpoint(context, count, endpoint)]; the
    value is the dictionary stored in [context.concurrent_results]. *)
Definition step_concurrent_requests_to_endpoint (pool : Pool) (count : Z)
    (endpoint : string) : M ConcurrentResults :=
  _ ← Steps.ensure_logger;
  _ ← logM [Txt "[PERF] Sending "; Int count; Txt " concurrent requests to ";
            Txt endpoint];
  let max_workers := Z.min 5 count in
  _ ← logM [Txt "[PERF] Using "; Int max_workers; Txt " concurrent workers"];
  _ ← lift (ThreadPoolExecutor max_workers);
  _ ← attr ctx_base_url "base_url";
  let futures := List.map (make_request pool) (request_ids count) in
  let results := as_completed pool _ futures in
  let total_time := wall_time pool in
  rps ← lift (throughput (length results) total_time);
  let success_count := count_if success results in
  let failure_count := count_if (fun r => negb (success r)) results in
  avg ← lift (py_div (sum_of rr_response_time results)
                (inject_Z (Z.of_nat (length results))));
  _ ← logM [Txt "[PERF] Concurrent test completed: "; Int count;
            Txt " requests in "; Fix3 total_time; Txt "s"];
  ret (mkConcurrentResults results total_time rps success_count failure_count
         avg).

(** The endpoint chosen by the inner [create_resource]. *)
Definition resource_endpoint (d : DataItem) : string :=
  match account d, customer d, booking d with
  | Some _, _, _ => "/accounts"
  | None, Some _, _ => "/customers"
  | None, None, Some _ => "/bookings"
  | None, None, None =>
      if has_customerId d && has_accountType d then "/accounts"
      else "/customers"
  end.

(** The inner [create_resource(data_item)]: an exception of the request is
    logged and raised again. *)
Definition create_resource (pool : Pool) (d : DataItem)
    : result ResourceResult :=
  match correlation_id d with
  | None => Raise (KeyError "correlation_id")
  | Some cid =>
      match submit pool (resource_endpoint d) d with
      | (Ok status, t) => Ok (mkResourceResult status t cid)
      | (Raise e, _) => Raise e
      end
  end.

(** [[future.result() for future in futures]]: the first exception met
    ends the comprehension. *)
Fixpoint collect {A : Type} (futures : list (result A)) : result (list A) :=
  match futures with
  | [] => Ok []
  | Ok a :: rest => l ← collect rest; Ok (a :: l)
  | Raise e :: _ => Raise e
  end.

(** [step_create_multiple_resources(context)] on [context.performance_data];
    the value is the dictionary stored in [context.performance_results]. *)
Definition step_create_multiple_resources (pool : Pool)
    (performance_data : option (list DataItem)) : M PerformanceResults :=
  match performance_data with
  | None => raise (ValueError "No performance dataset available")
  | Some data =>
      _ ← Steps.ensure_logger;
      _ ← logM [Txt "[PERF] Creating multiple resources using performance dataset..."];
      let max_workers := Z.min 5 (Z.of_nat (length data)) in
      let test_data_subset := firstn 10 data in
      _ ← logM [Txt "[PERF] Executing ";
                Int (Z.of_nat (length test_data_subset));
                Txt " concurrent requests with "; Int max_workers;
                Txt " workers"];
      _ ← lift (ThreadPoolExecutor max_workers);
      _ ← attr ctx_base_url "base_url";
      let futures := List.map (create_resource pool) test_data_subset in
      results ← lift (collect (as_completed pool _ futures));
      let total_time := wall_time pool in
      rps ← lift (throughput (length results) total_time);
      let success_count := count_if (fun r => is_2xx (pr_status_code r)) results in
      let failure_count := count_if (fun r => 400 <=? pr_status_code r) results in
      _ ← logM [Txt "[PERF] Performance test completed: ";
                Int (Z.of_nat (length results)); Txt " requests in ";
                Fix3 total_time; Txt "s"];
      ret (mkPerformanceResults results total_time rps success_count
             failure_count)
  end.

End Load.

(** ** Assertion helpers of the client

    [assert_status_code] and [assert_response_time_under] of
    [features/support/api/base_api.py] (repeated in the [APIClient]
    classes). *)
Module Checks.

(** [requests.Response.ok]: [raise_for_status] raises for a status from 400
    to 599; the truth value of a response is its [ok]. *)
Definition ok (r : Response) : bool :=
  negb ((400 <=? status_code r) && (status_code r <? 600)).

(** [assert_status_code(expected_status)]; [not self.last_response] holds
    for [None] and for a response that is not [ok]. *)
Definition assert_status_code (c : Api.BaseAPI) (expected_status : Z)
    : result unit :=
  match Api.last_response c with
  | None => Raise (AssertionError "No response to check")
  | Some r =>
      if negb (ok r) then Raise (AssertionError "No response to check")
      else
        let actual_status := status_code r in
        if negb (actual_status =? expected_status) then
          Raise (AssertionError "Expected status code differs")
        else Ok tt
  end.

(** [assert_response_time_under(max_time_ms)]; [not
    self.last_response_time] holds for [None] and for [0.0]. *)
Definition assert_response_time_under (c : Api.BaseAPI) (max_time_ms : Z)
    : result unit :=
  match Api.last_response_time c with
  | None => Raise (AssertionError "No response time to check")
  | Some t =>
      if Qeq_bool t 0 then Raise (AssertionError "No response time to check")
      else
        let response_time_ms := (t * 1000)%Q in
        if Env.Qgtb response_time_ms (inject_Z max_time_ms) then
          Raise (AssertionError "Response time exceeds threshold")
        else Ok tt
  end.

End Checks.

(** ** Endpoint classes and the delegating client

    [features/support/api/accounts_api.py] and the delegation methods of
    [features/support/clients/api_client.py]. Each endpoint object is a
    [BaseAPI] of its own, with its own session. *)
Module Facade.

Definition accounts_endpoint_base : string := "/accounts".

(** [AccountsAPI.get_account(account_id)] *)
Definition accounts_get_account (a : Api.BaseAPI) (net : Network)
    (account_id : string) : option Api.Outcome :=
  let endpoint := accounts_endpoint_base +:+ "/" +:+ account_id in
  Api.get a net endpoint None Api.no_kwargs.

(** [AccountsAPI.create_account(account_data)] *)
Definition accounts_create_account (a : Api.BaseAPI) (net : Network)
    (account_data : gmap string string) : option Api.Outcome :=
  Api.post a net accounts_endpoint_base None (Some account_data) Api.no_kwargs.

(** [AccountsAPI.validate_account_data(account_data)] *)
Definition validate_account_data (account_data : gmap string string) : bool :=
  forallb (fun field => bool_decide (is_Some (account_data !! field)))
    ["customerId"; "accountType"; "currency"].

(** [AccountsAPI.create_sample_account_data(...)], the balance written as
    text. *)
Definition create_sample_account_data
    (customer_id account_type currency initial_balance : string)
    : gmap string string :=
  {[ "customerId" := customer_id;
     "accountType" := account_type;
     "currency" := currency;
     "initialBalance" := initial_balance ]}.

(** The [APIClient] of [features/support/clients]: its own client state and
    the endpoint objects built with the same arguments. *)
Record APIClient : Type := mkAPIClient {
  self : Api.BaseAPI;
  accounts : Api.BaseAPI;
  customers : Api.BaseAPI;
  bookings : Api.BaseAPI;
  loans : Api.BaseAPI;
  term_deposits : Api.BaseAPI;
  health : Api.BaseAPI
}.

Definition init (base_url auth_token : string) (timeout retry_count : Z)
    : APIClient :=
  let api := Api.init base_url auth_token timeout retry_count in
  mkAPIClient api api api api api api api.

Definition set_self (cl : APIClient) (c : Api.BaseAPI) : APIClient :=
  mkAPIClient c (accounts cl) (customers cl) (bookings cl) (loans cl)
    (term_deposits cl) (health cl).

Definition set_accounts (cl : APIClient) (a : Api.BaseAPI) : APIClient :=
  mkAPIClient (self cl) a (customers cl) (bookings cl) (loans cl)
    (term_deposits cl) (health cl).

(** [APIClient.set_correlation_id] and [APIClient.reset_session] act on
    [self.session]. *)
Definition set_correlation_id (cl : APIClient) (correlation_id : string)
    : APIClient :=
  set_self cl (Api.set_correlation_id (self cl) correlation_id).

Definition reset_session (cl : APIClient) : APIClient :=
  set_self cl (Api.reset_session (self cl)).

(** [_sync_response_tracking(api_instance)] *)
Definition _sync_response_tracking (cl : APIClient) (api_instance : Api.BaseAPI)
    : APIClient :=
  set_self cl
    (Api.mkBaseAPI (Api.base_url (self cl)) (Api.auth_token (self cl))
       (Api.timeout (self cl)) (Api.retry_count (self cl))
       (Api.session (self cl)) (Api.last_request api_instance)
       (Api.last_response api_instance)
       (Api.last_response_time api_instance)).

(** What a delegating method leaves behind. *)
Record Delegated : Type := mkDelegated {
  after : APIClient;
  answer : result Response
}.

(** [APIClient.get_account(account_id)]: the call goes through
    [self.accounts]; the tracking slots are copied only when it returns. *)
Definition get_account (cl : APIClient) (net : Network) (account_id : string)
    : option Delegated :=
  match accounts_get_account (accounts cl) net account_id with
  | None => None
  | Some o =>
      let cl := set_accounts cl (Api.client o) in
      match Api.value o with
      | Ok response =>
          Some (mkDelegated (_sync_response_tracking cl (accounts cl))
                  (Ok response))
      | Raise e => Some (mkDelegated cl (Raise e))
      end
  end.

(** [APIClient.create_account(account_data)] *)
Definition create_account (cl : APIClient) (net : Network)
    (account_data : gmap string string) : option Delegated :=
  match accounts_create_account (accounts cl) net account_data with
  | None => None
  | Some o =>
      let cl := set_accounts cl (Api.client o) in
      match Api.value o with
      | Ok response =>
          Some (mkDelegated (_sync_response_tracking cl (accounts cl))
                  (Ok response))
      | Raise e => Some (mkDelegated cl (Raise e))
      end
  end.

End Facade.

(** ** [HealthAPI]

    [features/support/api/health_api.py]. *)
Module Health.





End Health.

(** ** Masking of secrets in the log

    [mask_sensitive_value] of [features/steps/common_steps.py] and the
    [AUTH] line of [before_all] in [features/environment.py]. *)
Module Masking.

Fixpoint repeat_char (c : ascii) (n : nat) : string :=
  match n with
  | O => ""
  | S n' => String c (repeat_char c n')
  end.

(** [c * n] for a string of one character: empty when [n <= 0]. *)
Definition str_mul (c : ascii) (n : Z) : string := repeat_char c (Z.to_nat n).

(** [s[start:]]: a negative start counts from the end, and both ends are
    clamped to the string. *)
Definition slice_from (s : string) (start : Z) : string :=
  let n := Z.of_nat (String.length s) in
  let i := if start <? 0 then Z.max (n + start) 0 else Z.min start n in
  substring (Z.to_nat i) (Z.to_nat (n - i)) s.

(** [mask_sensitive_value(value, mask_length=4)] *)
Definition mask_sensitive_value (value : string) (mask_length : Z) : string :=
  let len := Z.of_nat (String.length value) in
  if String.eqb value "" || (len <=? mask_length) then "****"
  else str_mul "*" (len - mask_length) +:+ slice_from value (- mask_length).

(** The token as [before_all] logs it:
    ['*' * (len(context.auth_token) - 4) + context.auth_token[-4:]]. *)
Definition auth_token_log (auth_token : string) : string :=
  str_mul "*" (Z.of_nat (String.length auth_token) - 4)
  +:+ slice_from auth_token (-4).

End Masking.

(** ** Vocabulary of the properties *)




(** No attempt is answered with a redirect status, so that the exchange
    ends with the answer of the adapter. *)
Definition no_redirect (server : nat -> attempt) : Prop :=
  forall i resp, server i = Answer resp -> redirect_status resp = false.

(** *** Sample clients and servers *)

(** The client of the example scenarios. *)
Definition example_client : Api.BaseAPI :=
  Api.init_default "https://api.example.test" "tok123".

Definition response_with (status : Z) : Response :=
  mkResponse status ∅ "" "https://api.example.test/accounts".

(** A server that answers every attempt with the same status. *)
Definition always (status : Z) : Network :=
  mkNetwork (fun _ _ => Answer (response_with status)) (1 # 10).



(** *** Sample contexts, worlds and batches *)

(** A working directory in which everything can be written. *)
Definition example_world : Env.World :=
  Env.mkWorld 1000 "20240101_120000" (Ok tt) (Ok tt) "/work"
    {[ "BASE_URL" := "https://api.example.test" ]} ∅ [].

(** The context of a scenario that has just begun. *)
Definition example_context : Env.Context :=
  Env.mkContext (Some []) (Some "https://api.example.test") ∅
    (Some (Env.fresh_test_metrics 990)) (Some (Env.fresh_scenario_metrics 999))
    (Some 999%Q) None None None.

Definition example_scenario (st : Env.Status) : Env.Scenario :=
  Env.mkScenario "Create account" "Accounts" "features/accounts.feature:12"
    ["smoke"] st None.


(** A batch in which every request is answered with the same status after a
    tenth of a second, the futures complete in reverse order, and the whole
    batch takes half a second. *)
Definition uniform_pool (status : Z) : Load.Pool :=
  Load.mkPool (fun _ => (Ok status, 1 # 10)) (fun _ _ => (Ok status, 1 # 10))
    (fun A l => List.rev l) (1 # 2).


(** A working directory in which the report file cannot be opened. *)
Definition unwritable_world : Env.World :=
  Env.mkWorld 1000 "20240101_120000" (Ok tt)
    (Raise (OSError "read-only file system")) "/work" ∅ ∅ [].


Definition example_item : Load.DataItem :=
  Load.mkDataItem None (Some ∅) None false false (Some "perf_corr_000001").

(** A batch in which every request fails to connect. *)
Definition failing_pool : Load.Pool :=
  Load.mkPool (fun _ => (Raise ConnectionError, 1 # 10))
    (fun _ _ => (Raise ConnectionError, 1 # 10)) (fun A l => l) (1 # 2).

(** The context at the end of a run with one scenario, which failed. *)
Definition closing_context : Env.Context :=
  Env.mkContext (Some []) (Some "https://api.example.test") ∅
    (Some (Env.mkTestMetrics 990 1 0 1 0 0 0)) None None None None
    (Some ["logs/failures/FAILED_Create_account_20240101_120000.txt"]).

(** The delegating client of the example scenarios. *)
Definition example_facade : Facade.APIClient :=
  Facade.init "https://api.example.test" "tok123" 30 3.

(** The aggregate that [step_create_multiple_resources] stores for a list
    of results. *)
Definition performance_of (pool : Load.Pool) (results : list Load.ResourceResult)
    : Load.PerformanceResults :=
  Load.mkPerformanceResults results (Load.wall_time pool)
    (if Env.Qgtb (Load.wall_time pool) 0
     then (inject_Z (Z.of_nat (length results)) / Load.wall_time pool)%Q
     else 0%Q)
    (Load.count_if (fun r => Load.is_2xx (Load.pr_status_code r)) results)
    (Load.count_if (fun r => 400 <=? Load.pr_status_code r) results).

(** [as_completed] hands back every future exactly once. *)
Definition fair (pool : Load.Pool) : Prop :=
  forall (A : Type) (l : list A), Permutation (Load.as_completed pool A l) l.

(** *** Runs of the framework *)

(** What can happen after [before_all]: the two scenario hooks, the steps
    that read or write the metrics, and changes of the clock and of the
    file system. A step or hook that raises ends there; Behave records the
    failure and goes on with the state as it is. *)
Inductive event : Type :=
| BeforeScenario (sc : Env.Scenario)
| AfterScenario (sc : Env.Scenario)
| GetRequest (net : Network) (endpoint : string)
| UpdateMetrics (response_time : Q)
| CaptureError (msg : string)
| FallbackLogger
| InitializeMetrics
| ResetEnvironment
| AssertResponseTime (max_time : Z)
| AssertAverageResponseTime (max_time : Z)
| Elapse (now : Q) (text : string)
| Disk (makedirs_result open_result : result unit).

Definition exec (e : event) : Env.M unit :=
  match e with
  | BeforeScenario sc => Env.before_scenario sc
  | AfterScenario sc => Env.after_scenario sc
  | GetRequest net endpoint => Steps.step_get_request net endpoint
  | UpdateMetrics response_time => Steps.update_metrics response_time
  | CaptureError msg => Steps.capture_error_details msg
  | FallbackLogger => Steps.setup_fallback_logger
  | InitializeMetrics => Steps.step_initialize_metrics
  | ResetEnvironment => Steps.step_reset_environment
  | AssertResponseTime max_time => Steps.step_assert_response_time max_time
  | AssertAverageResponseTime max_time =>
      Steps.step_assert_average_response_time max_time
  | Elapse now text =>
      fun st =>
        (Ok tt,
         (fst st,
          Env.mkWorld now text (Env.makedirs_result (snd st))
            (Env.open_result (snd st)) (Env.cwd (snd st))
            (Env.environ (snd st)) (Env.files (snd st))
            (Env.captured (snd st))))
  | Disk mk op =>
      fun st =>
        (Ok tt,
         (fst st,
          Env.mkWorld (Env.clock (snd st)) (Env.clock_text (snd st)) mk op
            (Env.cwd (snd st)) (Env.environ (snd st)) (Env.files (snd st))
            (Env.captured (snd st))))
  end.

(** The state after a sequence of events. *)
Fixpoint run (es : list event) (st : Env.St) : Env.St :=
  match es with
  | [] => st
  | e :: es' => run es' (snd (exec e st))
  end.

(** The state in which Behave starts the scenarios. *)
Definition started (w : Env.World) : Env.St :=
  snd (Env.before_all (Env.empty_context, w)).

(** A scenario with two recorded calls, then a scenario with one GET. *)
Definition example_run : list event :=
  [ BeforeScenario (example_scenario Env.passed);
    UpdateMetrics (1 # 10); UpdateMetrics (2 # 10);
    AfterScenario (example_scenario Env.passed);
    BeforeScenario (example_scenario Env.failed);
    GetRequest (always 200) "/accounts" ].

(** Call count of the run-scoped snapshot. *)
Definition run_calls (st : Env.St) : option Z :=
  option_map Env.t_api_calls (Env.test_metrics (fst st)).

(** Call count of the scenario-scoped snapshot. *)
Definition scenario_calls (st : Env.St) : option Z :=
  option_map Env.s_api_calls (Env.scenario_metrics (fst st)).

(** The run-scoped snapshot exists, and the scenario-scoped call count, if
    there is one, lies between 0 and the run-scoped one. *)
Definition calls_inv (st : Env.St) : Prop :=
  exists t, Env.test_metrics (fst st) = Some t
    /\ 0 <= Env.t_api_calls t
    /\ forall s, Env.scenario_metrics (fst st) = Some s ->
         0 <= Env.s_api_calls s <= Env.t_api_calls t.

(** As [calls_inv], with the run-scoped count ahead of the scenario-scoped
    one by [d] at least. *)
Definition gap_at_least (d : Z) (st : Env.St) : Prop :=
  exists t, Env.test_metrics (fst st) = Some t
    /\ d <= Env.t_api_calls t
    /\ forall s, Env.scenario_metrics (fst st) = Some s ->
         0 <= Env.s_api_calls s /\ d <= Env.t_api_calls t - Env.s_api_calls s.

(** The run-scoped call count is at least [n]. *)
Definition run_calls_at_least (n : Z) (st : Env.St) : Prop :=
  exists t, Env.test_metrics (fst st) = Some t /\ n <= Env.t_api_calls t.

(** [m] keeps the state inside [I], whether it returns or raises. *)
Definition preserves (I : Env.St -> Prop) {A : Type} (m : Env.M A) : Prop :=
  forall st, I st -> I (snd (m st)).

(** * Properties *)

(** ** The retry loop *)
Section RetryLoop.

Import Urllib3.

Lemma fold_min_le (x : Z) (l : list Z) : fold_right Z.min x l <= x.
Proof. induction l as [|y l IH]; simpl; lia. Qed.

Lemma fold_min_head (x y : Z) (l : list Z) : fold_right Z.min x (y :: l) <= y.
Proof. simpl. lia. Qed.

(** A [Retry] object that is not exhausted has a non-negative [total]. *)
Lemma not_exhausted_total (r : Retry) : is_exhausted r = false -> 0 <= total r.
Proof.
  unfold is_exhausted.
  destruct (total r =? 0) eqn:E0; [apply Z.eqb_eq in E0; lia|].
  cbn [app]. intros H.
  apply Z.ltb_ge in H.
  pose proof (fold_min_le (total r)
    (match read r with Count n => if n =? 0 then [] else [n] | _ => [] end)).
  lia.
Qed.

Lemma increment_total (r r' : Retry) (method : string) (o : attempt) :
  increment r method o = inr r' -> total r' = total r - 1 /\ 0 <= total r'.
Proof.
  unfold increment. intros H.
  assert (G : forall nr why,
    (if is_exhausted nr then inl (MaxRetryError why) else inr nr) = inr r' ->
    total nr = total r - 1 -> total r' = total r - 1 /\ 0 <= total r').
  { intros nr why E T. destruct (is_exhausted nr) eqn:X; [discriminate|].
    injection E as <-. split; [exact T|]. now apply not_exhausted_total. }
  destruct o as [resp|e].
  - eapply G; [exact H|reflexivity].
  - destruct (_is_connection_error e).
    + eapply G; [exact H|reflexivity].
    + destruct (_is_read_error e).
      * destruct (read r); try discriminate;
          destruct (negb (_is_method_retryable r method)); try discriminate;
          (eapply G; [exact H|reflexivity]).
      * eapply G; [exact H|reflexivity].
Qed.

(** Enough fuel: the loop ends with a response or an exception. *)
Lemma urlopen_total (server : nat -> attempt) (method : string) :
  forall (fuel : nat) (r : Retry) (n : nat),
    (Z.to_nat (total r) < fuel)%nat ->
    exists out k, urlopen fuel server method r n = (Some out, k).
Proof.
  induction fuel as [|fuel IH]; intros r n Hf; [lia|].
  cbn [urlopen].
  destruct (server n) as [resp|e].
  - destruct (is_retry r method (status_code resp) (has_retry_after resp));
      [|eauto].
    destruct (increment r method (Answer resp)) as [exc|r'] eqn:I.
    + destruct (raise_on_status r); eauto.
    + apply increment_total in I as [T P]. apply IH. lia.
  - destruct (increment r method (Fails e)) as [exc|r'] eqn:I; [eauto|].
    apply increment_total in I as [T P]. apply IH. lia.
Qed.

Lemma urlopen_fuel_enough (server : nat -> attempt) (method : string)
    (r : Retry) :
  exists out k, urlopen (fuel_for r) server method r 0 = (Some out, k).
Proof. apply urlopen_total. unfold fuel_for. lia. Qed.

(** The one attempt of the module-level functions is what the attempt loop
    does for a fresh session. *)
Lemma api_is_request (net : Network) (method url : string)
    (hdrs : gmap string string) :
  Requests.request Requests.new_session net method url hdrs
  = Some (Requests.api net method url hdrs).
Proof.
  unfold Requests.request, Requests.send, Requests.api.
  change (fuel_for (Requests.max_retries Requests.new_session)) with 1%nat.
  cbn [urlopen Requests.max_retries Requests.new_session].
  destruct (serve net _ 0%nat) as [resp|e].
  - unfold is_retry, Requests.DEFAULT_RETRIES.
    cbn [status_forcelist int_in existsb total Z.eqb negb andb].
    now destruct (negb _).
  - now destruct e.
Qed.

End RetryLoop.

(** ** The retry strategy of the clients *)
Section ClientStrategy.

Import Urllib3.











End ClientStrategy.

(** ** The number of attempts of a call *)
Section RetryBound.

Import Urllib3.


End RetryBound.

(** ** The HTTP client core *)
Section ClientCore.

Import Urllib3.

Variables (c : Api.BaseAPI) (net : Network) (method endpoint : string)
  (kwargs : Api.Kwargs).

Let server : nat -> attempt :=
  serve net (Api.wire_request c method endpoint kwargs).

Let tracked : Api.BaseAPI :=
  Api.set_last_request c
    (Api.mkRequestRecord method (Api._build_url c endpoint)
       (Api.merged_kwargs c kwargs)).

(** [_make_request] in terms of the attempt loop. *)
Lemma make_request_loop :
  Api._make_request c net method endpoint kwargs
  = match urlopen (fuel_for (Requests.max_retries (Api.session c))) server
            method (Requests.max_retries (Api.session c)) 0 with
    | (None, _) => None
    | (Some (inr resp), n) =>
        Some (Api.mkOutcome (Api.set_last_response tracked resp (elapsed net))
                (Ok resp) n)
    | (Some (inl exc), n) =>
        Some (Api.mkOutcome tracked (Raise (Requests.translate exc)) n)
    end.
Proof.
  unfold Api._make_request, Requests.request, Requests.send.
  change (Requests.prepare _ _ _ _)
    with (Api.wire_request c method endpoint kwargs).
  fold server. cbn [Api.session Api.set_last_request].
  destruct (urlopen _ server method _ 0) as [[[exc|resp]|] n]; reflexivity.
Qed.

(** The call always comes back: with a response or with an exception. *)
Lemma make_request_returns :
  exists o, Api._make_request c net method endpoint kwargs = Some o.
Proof.
  rewrite make_request_loop.
  destruct (urlopen_fuel_enough server method
              (Requests.max_retries (Api.session c))) as ([exc|resp] & k & ->);
    eauto.
Qed.

End ClientCore.











(** ** Reasoning about hooks and steps *)
Section Preservation.

Import Env.

Context (I : St -> Prop).

Lemma preserves_ret {A : Type} (a : A) : preserves I (mret a).
Proof. intros st H. exact H. Qed.

Lemma preserves_raise {A : Type} (e : exn) : preserves I (@raise A e).
Proof. intros st H. exact H. Qed.

Lemma preserves_lift {A : Type} (r : result A) : preserves I (lift r).
Proof. intros st H. exact H. Qed.

Lemma preserves_get_ctx : preserves I get_ctx.
Proof. intros st H. exact H. Qed.

Lemma preserves_get_world : preserves I get_world.
Proof. intros st H. exact H. Qed.

Lemma preserves_attr {A : Type} (field : Context -> option A) (what : string) :
  preserves I (attr field what).
Proof. intros st H. unfold attr. destruct (field (fst st)); exact H. Qed.

Lemma preserves_bind {A B : Type} (m : M A) (k : A -> M B) :
  preserves I m -> (forall a, preserves I (k a)) -> preserves I (m ≫= k).
Proof.
  intros Hm Hk st H. unfold mbind, M_bind, bind.
  specialize (Hm st H). destruct (m st) as [[a|e] st']; [|exact Hm].
  apply Hk, Hm.
Qed.

Lemma preserves_try {A : Type} (body : M A) (handler : exn -> M A) :
  preserves I body -> (forall e, preserves I (handler e)) ->
  preserves I (try_except body handler).
Proof.
  intros Hb Hh st H. unfold try_except.
  specialize (Hb st H). destruct (body st) as [[a|e] st']; [exact Hb|].
  apply Hh, Hb.
Qed.

Lemma preserves_when (b : bool) (m : M unit) :
  preserves I m -> preserves I (when b m).
Proof. intros Hm. destruct b; [exact Hm|apply preserves_ret]. Qed.

Lemma preserves_modify (f : Context -> Context) :
  (forall c w, I (c, w) -> I (f c, w)) -> preserves I (modify_ctx f).
Proof. intros Hf [c w] H. apply Hf, H. Qed.

Lemma preserves_logM (l : line) :
  (forall c w ls, I (c, w) -> I (set_logger c ls, w)) -> preserves I (logM l).
Proof.
  intros Hl [c w] H. unfold logM, log. cbn [fst snd].
  destruct (logger c); [apply Hl, H|exact H].
Qed.

(** Steps that only touch the world outside. *)
Lemma preserves_makedirs :
  (forall c w w', I (c, w) -> I (c, w')) -> preserves I makedirs.
Proof. intros Hw st H. exact H. Qed.

Lemma preserves_write_file (path : string) (content : list line) :
  (forall c w w', I (c, w) -> I (c, w')) ->
  preserves I (write_file path content).
Proof.
  intros Hw [c w] H. unfold write_file. cbn [fst snd].
  destruct (open_result w); [eapply Hw, H|exact H].
Qed.

Lemma preserves_note_captured (d : FailureDetails) :
  (forall c w w', I (c, w) -> I (c, w')) -> preserves I (note_captured d).
Proof. intros Hw [c w] H. eapply Hw, H. Qed.

End Preservation.

Ltac preserves_step :=
  lazymatch goal with
  | |- preserves _ (_ ≫= _) => apply preserves_bind; [|intros]
  | |- preserves _ (Env.ret _) => apply preserves_ret
  | |- preserves _ (mret _) => apply preserves_ret
  | |- preserves _ (Env.raise _) => apply preserves_raise
  | |- preserves _ (Env.lift _) => apply preserves_lift
  | |- preserves _ Env.get_ctx => apply preserves_get_ctx
  | |- preserves _ Env.get_world => apply preserves_get_world
  | |- preserves _ (Env.attr _ _) => apply preserves_attr
  | |- preserves _ (Env.when _ _) => apply preserves_when
  | |- preserves _ (Env.try_except _ _) => apply preserves_try; [|intros]
  | |- preserves _ (Env.logM _) =>
      apply preserves_logM; let H := fresh in intros ? ? ? H; exact H
  | |- preserves _ Env.makedirs =>
      apply preserves_makedirs; let H := fresh in intros ? ? ? H; exact H
  | |- preserves _ (Env.write_file _ _) =>
      apply preserves_write_file; let H := fresh in intros ? ? ? H; exact H
  | |- preserves _ (Env.note_captured _) =>
      apply preserves_note_captured; let H := fresh in intros ? ? ? H; exact H
  | |- preserves _ (match ?x with _ => _ end) => destruct x
  end.

(** ** Invariants of the two metrics dictionaries

    A property [P] of the pair of dictionaries that the hooks and steps
    cannot break. *)
Section MetricsInvariant.

Import Env.

Variable P : option TestMetrics -> option ScenarioMetrics -> Prop.

Hypothesis P_none : forall s, ~ P None s.
Hypothesis P_counts : forall t t' s,
  t_api_calls t' = t_api_calls t -> P (Some t) s -> P (Some t') s.
Hypothesis P_fresh : forall t s now,
  P t s -> P t (Some (fresh_scenario_metrics now)).
Hypothesis P_drop : forall t s, P t s -> P t None.
Hypothesis P_error : forall t s msg,
  P t (Some s) -> P t (Some (Steps.append_error msg s)).
Hypothesis P_run_call : forall t rt,
  P (Some t) None -> P (Some (Steps.record_test_call rt t)) None.
Hypothesis P_call : forall t s rt,
  P (Some t) (Some s) ->
  P (Some (Steps.record_test_call rt t))
    (Some (Steps.record_scenario_call rt s)).

Let I (st : St) : Prop := P (test_metrics (fst st)) (scenario_metrics (fst st)).

Ltac plain := repeat preserves_step; try (intros ? ? H; exact H).

Lemma inv_update_test_metrics (f : TestMetrics -> TestMetrics) :
  (forall t, t_api_calls (f t) = t_api_calls t) ->
  preserves I (update_test_metrics f).
Proof.
  intros Hf [c w] H. unfold update_test_metrics, I in *. cbn in *.
  destruct (test_metrics c) as [t|] eqn:E; cbn; [|now rewrite E].
  eapply P_counts; [apply Hf|exact H].
Qed.

Lemma inv_log_average (label : string) (total : Q) (calls : Z) :
  preserves I (log_average label total calls).
Proof. unfold log_average. plain. Qed.

Lemma inv_capture_failure_details (sc : Scenario) (end_time duration : Q) :
  preserves I (capture_failure_details sc end_time duration).
Proof.
  unfold capture_failure_details. plain.
  apply preserves_modify. intros c w H. exact H.
Qed.

Lemma inv_before_scenario (sc : Scenario) : preserves I (before_scenario sc).
Proof.
  unfold before_scenario. plain.
  - apply preserves_modify. intros c w H. exact H.
  - apply preserves_modify. intros c w H. unfold I in *. cbn in *.
    eapply P_fresh, H.
  - now apply inv_update_test_metrics.
Qed.

Lemma inv_after_scenario_report (sc : Scenario) (duration : Q) :
  preserves I (after_scenario_report sc duration).
Proof.
  unfold after_scenario_report. plain.
  - apply inv_log_average.
  - apply preserves_modify. intros c w H. unfold I in *. cbn in *.
    eapply P_drop, H.
Qed.

Lemma inv_after_scenario (sc : Scenario) : preserves I (after_scenario sc).
Proof.
  unfold after_scenario.
  plain; first [ now apply inv_update_test_metrics
               | apply inv_capture_failure_details
               | apply inv_after_scenario_report ].
Qed.

Lemma inv_update_metrics (rt : Q) : preserves I (Steps.update_metrics rt).
Proof.
  intros [c w] H. unfold I in *.
  unfold Steps.update_metrics, mbind, M_bind, bind, modify_ctx. cbn in *.
  destruct (test_metrics c) as [t|]; [|now apply P_none in H].
  cbn. destruct (scenario_metrics c) as [s|] eqn:Es; cbn.
  - now apply P_call.
  - rewrite Es. now apply P_run_call.
Qed.

Lemma inv_capture_error_details (msg : string) :
  preserves I (Steps.capture_error_details msg).
Proof.
  unfold Steps.capture_error_details. plain.
  - apply preserves_modify. intros c w H. unfold I in *. cbn in *.
    destruct (scenario_metrics c) as [s|] eqn:E; cbn; [|now rewrite E].
    now apply P_error.
  - apply preserves_modify. intros c w H. exact H.
Qed.

Lemma inv_init_metrics_if_missing : preserves I Steps.init_metrics_if_missing.
Proof.
  unfold Steps.init_metrics_if_missing. plain.
  - apply preserves_modify. intros c w H. unfold I in *. cbn in *.
    destruct (test_metrics c) as [t|] eqn:E; cbn; [now rewrite E|].
    now apply P_none in H.
  - apply preserves_modify. intros c w H. unfold I in *. cbn in *.
    destruct (scenario_metrics c) as [s|] eqn:E; cbn; [now rewrite E|].
    eapply P_fresh, H.
Qed.

Lemma inv_setup_fallback_logger : preserves I Steps.setup_fallback_logger.
Proof.
  unfold Steps.setup_fallback_logger, Steps.load_environment_config. plain.
  - apply preserves_modify. intros c w H. exact H.
  - apply preserves_modify. intros c w H. exact H.
  - apply inv_init_metrics_if_missing.
Qed.

Lemma inv_ensure_logger : preserves I Steps.ensure_logger.
Proof.
  unfold Steps.ensure_logger. plain. apply inv_setup_fallback_logger.
Qed.

Lemma inv_step_initialize_metrics : preserves I Steps.step_initialize_metrics.
Proof.
  unfold Steps.step_initialize_metrics. plain;
    [apply inv_ensure_logger|apply inv_init_metrics_if_missing].
Qed.

Lemma inv_step_reset_environment : preserves I Steps.step_reset_environment.
Proof.
  unfold Steps.step_reset_environment. plain.
  - apply inv_ensure_logger.
  - apply preserves_modify. intros c w H. exact H.
  - apply preserves_modify. intros c w H. unfold I in *. cbn in *.
    destruct (scenario_metrics c) as [s|] eqn:E; cbn; [|now rewrite E].
    eapply P_fresh, H.
Qed.

Lemma inv_step_get_request (net : Network) (endpoint : string) :
  preserves I (Steps.step_get_request net endpoint).
Proof.
  unfold Steps.step_get_request. plain.
  - apply inv_ensure_logger.
  - apply preserves_modify. intros c w H. exact H.
  - apply inv_update_metrics.
  - apply preserves_modify. intros c w H. exact H.
Qed.

Lemma inv_step_assert_response_time (max_time : Z) :
  preserves I (Steps.step_assert_response_time max_time).
Proof.
  unfold Steps.step_assert_response_time.
  plain; first [apply inv_ensure_logger | apply inv_capture_error_details].
Qed.

Lemma inv_step_assert_average_response_time (max_time : Z) :
  preserves I (Steps.step_assert_average_response_time max_time).
Proof.
  unfold Steps.step_assert_average_response_time.
  plain; first [apply inv_ensure_logger | apply inv_capture_error_details].
Qed.

Lemma inv_exec (e : event) : preserves I (exec e).
Proof.
  destruct e; cbn [exec].
  - apply inv_before_scenario.
  - apply inv_after_scenario.
  - apply inv_step_get_request.
  - apply inv_update_metrics.
  - apply inv_capture_error_details.
  - apply inv_setup_fallback_logger.
  - apply inv_step_initialize_metrics.
  - apply inv_step_reset_environment.
  - apply inv_step_assert_response_time.
  - apply inv_step_assert_average_response_time.
  - intros st H. exact H.
  - intros st H. exact H.
Qed.

Lemma inv_run (es : list event) : forall st, I st -> I (run es st).
Proof.
  induction es as [|e es IH]; intros st H; [exact H|].
  cbn [run]. apply IH, inv_exec, H.
Qed.

End MetricsInvariant.

(** ** The two snapshots during a run *)
Section Snapshots.

Import Env.

Ltac run_monad :=
  unfold mbind, M_bind, bind, modify_ctx, logM, log, get_world, get_ctx,
    when, raise, ret, lift, attr, makedirs, try_except;
  cbn [fst snd].

(** [before_all], when it returns, leaves an empty run-scoped snapshot and
    no scenario-scoped one. *)
Lemma started_metrics (w : World) :
  fst (before_all (empty_context, w)) = Ok tt ->
  test_metrics (fst (started w)) = Some (fresh_test_metrics (clock w))
  /\ scenario_metrics (fst (started w)) = None.
Proof.
  unfold started, before_all, setup_comprehensive_logging. run_monad.
  destruct (makedirs_result w) as [[]|e] eqn:Em; cbn; [|discriminate].
  rewrite ?Em; cbn.
  destruct (str_truthy (environ w !! "BASE_URL")); cbn; [|discriminate].
  intros _. split; reflexivity.
Qed.

Lemma gap_exec (d : Z) (e : event) : preserves (gap_at_least d) (exec e).
Proof.
  apply (inv_exec (fun t s => exists tm, t = Some tm
            /\ d <= t_api_calls tm
            /\ forall sm, s = Some sm ->
                 0 <= s_api_calls sm /\ d <= t_api_calls tm - s_api_calls sm)).
  - intros s (tm & E & _). discriminate E.
  - intros t t' s E (tm & [= <-] & H1 & H2). exists t'.
    rewrite E. auto.
  - intros t s now (tm & -> & H1 & H2). exists tm. split; [reflexivity|].
    split; [exact H1|]. intros sm [= <-]. cbn. lia.
  - intros t s (tm & -> & H1 & H2). exists tm. split; [reflexivity|].
    split; [exact H1|]. intros sm E. discriminate E.
  - intros t s msg (tm & -> & H1 & H2). exists tm. split; [reflexivity|].
    split; [exact H1|]. intros sm [= <-]. cbn. now apply H2.
  - intros t rt (tm & [= <-] & H1 & H2). eexists. split; [reflexivity|].
    split; [cbn; lia|]. intros sm E. discriminate E.
  - intros t s rt (tm & [= <-] & H1 & H2). eexists. split; [reflexivity|].
    split; [cbn; lia|]. intros sm [= <-]. cbn.
    specialize (H2 s eq_refl). lia.
Qed.

Lemma calls_inv_gap (st : St) : calls_inv st <-> gap_at_least 0 st.
Proof.
  unfold calls_inv, gap_at_least. split; intros (t & E & H1 & H2);
    exists t; (split; [exact E|]); (split; [exact H1|]);
    intros s Es; specialize (H2 s Es); lia.
Qed.

Lemma calls_inv_run (es : list event) :
  forall st, calls_inv st -> calls_inv (run es st).
Proof.
  induction es as [|e es IH]; intros st H; [exact H|].
  cbn [run]. apply IH, calls_inv_gap, gap_exec, calls_inv_gap, H.
Qed.

Lemma at_least_exec (n : Z) (e : event) :
  preserves (run_calls_at_least n) (exec e).
Proof.
  apply (inv_exec (fun t s => exists tm, t = Some tm /\ n <= t_api_calls tm)).
  - intros s (tm & E & _). discriminate E.
  - intros t t' s E (tm & [= <-] & H). exists t'. rewrite E. auto.
  - intros t s now H. exact H.
  - intros t s H. exact H.
  - intros t s msg H. exact H.
  - intros t rt (tm & [= <-] & H). eexists. split; [reflexivity|]. cbn. lia.
  - intros t s rt (tm & [= <-] & H). eexists. split; [reflexivity|]. cbn. lia.
Qed.

Lemma run_calls_some (st : St) (t : Z) :
  run_calls st = Some t ->
  exists tm, test_metrics (fst st) = Some tm /\ t_api_calls tm = t.
Proof.
  unfold run_calls. destruct (test_metrics (fst st)) as [tm|]; [|discriminate].
  intros [= <-]. eauto.
Qed.

Lemma scenario_calls_some (st : St) (s : Z) :
  scenario_calls st = Some s ->
  exists sm, scenario_metrics (fst st) = Some sm /\ s_api_calls sm = s.
Proof.
  unfold scenario_calls.
  destruct (scenario_metrics (fst st)) as [sm|]; [|discriminate].
  intros [= <-]. eauto.
Qed.

(** [before_scenario] leaves the run-scoped counters alone and, when it
    returns, has put the scenario-scoped call count to 0. *)
Lemma before_scenario_counters (sc : Scenario) (st : St) :
  run_calls (snd (before_scenario sc st)) = run_calls st
  /\ option_map t_total_response_time
       (test_metrics (fst (snd (before_scenario sc st))))
     = option_map t_total_response_time (test_metrics (fst st))
  /\ (fst (before_scenario sc st) = Ok tt ->
      scenario_calls (snd (before_scenario sc st)) = Some 0
      /\ option_map s_total_response_time
           (scenario_metrics (fst (snd (before_scenario sc st))))
         = Some 0%Q).
Proof.
  destruct st as [c w].
  unfold before_scenario, update_test_metrics, run_calls, scenario_calls.
  run_monad. cbn.
  destruct (logger c) as [ls|]; cbn.
  - destruct (test_metrics c) as [tm|] eqn:E; cbn.
    + repeat split.
    + rewrite E. repeat split; discriminate.
  - repeat split; discriminate.
Qed.

End Snapshots.

(** C7. Throughout a run the scenario-scoped call count never exceeds the
    run-scoped one. (1) After [before_all] has returned, whatever sequence
    of hooks, steps and outside changes follows, the run-scoped snapshot
    exists and a scenario-scoped call count, when there is one, lies
    between 0 and the run-scoped call count. (2) No event lets the
    scenario-scoped count gain more than the run-scoped count gains, so
    whatever increments the former increments the latter. (3) Recording a
    call with both snapshots present adds one to each. (4)
    [before_scenario] leaves the call count and the cumulative time of the
    run-scoped snapshot as they were and, when it returns, has set those of
    the scenario-scoped snapshot to 0. (5) No event lowers the run-scoped
    call count: it is never reset. *)
Theorem scenario_calls_le_run_calls :
  (forall (w : Env.World) (es : list event),
     fst (Env.before_all (Env.empty_context, w)) = Ok tt ->
     calls_inv (run es (started w))
     /\ forall s t,
          scenario_calls (run es (started w)) = Some s ->
          run_calls (run es (started w)) = Some t ->
          s <= t)
  /\ (forall (e : event) (st : Env.St) (t s t' s' : Z),
        calls_inv st ->
        run_calls st = Some t -> scenario_calls st = Some s ->
        run_calls (snd (exec e st)) = Some t' ->
        scenario_calls (snd (exec e st)) = Some s' ->
        s' - s <= t' - t)
  /\ (forall (rt : Q) (c : Env.Context) (w : Env.World) tm sm,
        Env.test_metrics c = Some tm ->
        Env.scenario_metrics c = Some sm ->
        run_calls (snd (Steps.update_metrics rt (c, w)))
        = Some (Env.t_api_calls tm + 1)
        /\ scenario_calls (snd (Steps.update_metrics rt (c, w)))
           = Some (Env.s_api_calls sm + 1))
  /\ (forall (sc : Env.Scenario) (st : Env.St),
        run_calls (snd (Env.before_scenario sc st)) = run_calls st
        /\ option_map Env.t_total_response_time
             (Env.test_metrics (fst (snd (Env.before_scenario sc st))))
           = option_map Env.t_total_response_time (Env.test_metrics (fst st))
        /\ (fst (Env.before_scenario sc st) = Ok tt ->
            scenario_calls (snd (Env.before_scenario sc st)) = Some 0
            /\ option_map Env.s_total_response_time
                 (Env.scenario_metrics (fst (snd (Env.before_scenario sc st))))
               = Some 0%Q))
  /\ (forall (e : event) (st : Env.St) (n : Z),
        run_calls_at_least n st -> run_calls_at_least n (snd (exec e st))).
Proof.
  split; [|split; [|split; [|split]]].
  - intros w es Hb.
    assert (Inv : calls_inv (run es (started w))).
    { apply calls_inv_run. destruct (started_metrics w Hb) as [Et Es].
      exists (Env.fresh_test_metrics (Env.clock w)).
      split; [exact Et|]. split; [cbn; lia|].
      intros s E. rewrite Es in E. discriminate E. }
    split; [exact Inv|].
    intros s t Hs Ht.
    apply scenario_calls_some in Hs as (sm & Es & <-).
    apply run_calls_some in Ht as (tm & Et & <-).
    destruct Inv as (tm' & Et' & _ & H). rewrite Et in Et'.
    injection Et' as <-. apply (H sm Es).
  - intros e st t s t' s' Inv Ht Hs Ht' Hs'.
    apply run_calls_some in Ht as (tm & Et & <-).
    apply scenario_calls_some in Hs as (sm & Es & <-).
    apply run_calls_some in Ht' as (tm' & Et' & <-).
    apply scenario_calls_some in Hs' as (sm' & Es' & <-).
    assert (G : gap_at_least (Env.t_api_calls tm - Env.s_api_calls sm) st).
    { destruct Inv as (tm0 & Et0 & H0 & H). rewrite Et in Et0.
      injection Et0 as <-. specialize (H sm Es).
      exists tm. split; [exact Et|]. split; [lia|].
      intros s0 Es0. rewrite Es in Es0. injection Es0 as <-. lia. }
    apply (gap_exec _ e) in G. destruct G as (tm0 & Et0 & _ & H).
    rewrite Et' in Et0. injection Et0 as <-.
    specialize (H sm' Es'). lia.
  - intros rt c w tm sm Et Es.
    unfold run_calls, scenario_calls, Steps.update_metrics, mbind,
      Env.M_bind, Env.bind, Env.modify_ctx.
    cbn. rewrite Et. cbn. rewrite Es. cbn. split; reflexivity.
  - intros sc st. apply before_scenario_counters.
  - intros e st n. apply at_least_exec.
Qed.

(** ** Sequencing lemmas *)
Section Sequencing.

Import Env.

Lemma bind_ok {A B : Type} (m : M A) (k : A -> M B) (st st' : St) (a : A) :
  m st = (Ok a, st') -> (m ≫= k) st = k a st'.
Proof. intros H. unfold mbind, M_bind, bind. now rewrite H. Qed.

Lemma bind_raise {A B : Type} (m : M A) (k : A -> M B) (st st' : St)
    (e : exn) :
  m st = (Raise e, st') -> (m ≫= k) st = (Raise e, st').
Proof. intros H. unfold mbind, M_bind, bind. now rewrite H. Qed.

Lemma logM_ok (l : line) (c : Context) (w : World) (ls : list line) :
  logger c = Some ls ->
  logM l (c, w) = (Ok tt, (set_logger c (Some (ls ++ [l])), w)).
Proof. intros H. unfold logM, log. cbn [fst snd]. now rewrite H. Qed.

Lemma logM_next (l : line) (c : Context) (w : World) (ls : list line) :
  logM l (set_logger c (Some ls), w)
  = (Ok tt, (set_logger c (Some (ls ++ [l])), w)).
Proof. reflexivity. Qed.

(** After the first lines of a step there is a logger; the world is as it
    was; a scenario snapshot that was there is kept, and one that appears is
    empty. *)
Lemma ensure_logger_spec (c : Context) (w : World) :
  exists c' ls,
    Steps.ensure_logger (c, w) = (Ok tt, (c', w))
    /\ logger c' = Some ls
    /\ (forall m, scenario_metrics c' = Some m ->
          scenario_metrics c = Some m
          \/ m = fresh_scenario_metrics (clock w))
    /\ (is_Some (ctx_base_url c) -> is_Some (ctx_base_url c')).
Proof.
  unfold Steps.ensure_logger, Steps.setup_fallback_logger,
    Steps.load_environment_config, Steps.init_metrics_if_missing.
  unfold mbind, M_bind, bind, modify_ctx, logM, log, get_world, get_ctx,
    ret, try_except, makedirs.
  cbn.
  destruct (logger c) as [ls|] eqn:El; cbn.
  - exists c, ls. repeat split; auto.
  - rewrite El. cbn.
    destruct (makedirs_result w) as [[]|e]; cbn;
      destruct (test_metrics c), (scenario_metrics c); cbn;
      eexists; eexists; (split; [reflexivity|]); (split; [reflexivity|]);
      cbn; (split; [intros m [= <-]; auto|intros _; eauto]).
Qed.

Lemma py_div_nonzero (a : Q) (n : Z) :
  n <> 0 -> py_div a (inject_Z n) = Ok (a / inject_Z n)%Q.
Proof.
  intros Hn. unfold py_div.
  destruct (Qeq_bool (inject_Z n) 0) eqn:E; [|reflexivity].
  apply Qeq_bool_iff in E. unfold Qeq in E. cbn in E. lia.
Qed.

Lemma average_returns (total : Q) (calls : Z) :
  average total calls = Ok (total / max1 calls)%Q.
Proof. unfold average, max1. apply py_div_nonzero. lia. Qed.

End Sequencing.

(** ** Averages *)
Section Averages.

Import Env.

Ltac run_monad :=
  unfold mbind, M_bind, bind, modify_ctx, logM, log, get_world, get_ctx,
    when, raise, ret, lift, attr, try_except;
  cbn.

Lemma Qgtb_zero (q : Q) : (q == 0)%Q -> Qgtb q 0 = false.
Proof.
  intros H. unfold Qgtb. apply negb_false_iff, Qle_bool_iff.
  rewrite H. apply Qle_refl.
Qed.

(** The average lines of the hooks never raise, and log nothing for a
    snapshot without accumulated time. *)
Lemma log_average_safe (label : string) (total : Q) (calls : Z) (st : St) :
  (fst (log_average label total calls st) = Ok tt
   \/ exists what,
        fst (log_average label total calls st) = Raise (AttributeError what))
  /\ ((total == 0)%Q -> log_average label total calls st = (Ok tt, st)).
Proof.
  unfold log_average. split.
  - destruct (Qgtb total 0); cbn; [|now left].
    run_monad. rewrite average_returns. cbn.
    destruct st as [c w]. cbn. destruct (logger c); cbn; eauto.
  - intros H. now rewrite Qgtb_zero.
Qed.

(** [step_assert_average_response_time] returns or fails its assertion;
    it returns when the scenario made no call. *)
Lemma step_assert_average_response_time_safe (max_time : Z) (st : St) :
  (fst (Steps.step_assert_average_response_time max_time st) = Ok tt
   \/ exists msg,
        fst (Steps.step_assert_average_response_time max_time st)
        = Raise (AssertionError msg))
  /\ ((forall m, scenario_metrics (fst st) = Some m -> s_api_calls m = 0) ->
      fst (Steps.step_assert_average_response_time max_time st) = Ok tt).
Proof.
  destruct st as [c w].
  destruct (ensure_logger_spec c w) as (c' & ls & He & Hl & Hm & _).
  unfold Steps.step_assert_average_response_time.
  rewrite (bind_ok _ _ _ _ _ He).
  unfold Steps.capture_error_details. run_monad. rewrite Hl. cbn.
  destruct (scenario_metrics c') as [m|] eqn:Es; cbn.
  - destruct (s_api_calls m =? 0) eqn:E0; cbn.
    + split; [now left|reflexivity].
    + apply Z.eqb_neq in E0. rewrite py_div_nonzero by assumption. cbn.
      destruct (Qle_bool _ _); cbn.
      * split; [now left|reflexivity].
      * split; [right; eauto|].
        intros H. destruct (Hm m eq_refl) as [Hc| ->].
        -- now apply H in Hc.
        -- now cbn in E0.
  - split; [now left|reflexivity].
Qed.

(** The same for [step_assert_response_time]. *)
Lemma step_assert_response_time_safe (max_time : Z) (st : St) :
  (fst (Steps.step_assert_response_time max_time st) = Ok tt
   \/ exists msg,
        fst (Steps.step_assert_response_time max_time st)
        = Raise (AssertionError msg))
  /\ ((forall m, scenario_metrics (fst st) = Some m -> s_api_calls m = 0) ->
      fst (Steps.step_assert_response_time max_time st) = Ok tt).
Proof.
  destruct st as [c w].
  destruct (ensure_logger_spec c w) as (c' & ls & He & Hl & Hm & _).
  unfold Steps.step_assert_response_time.
  rewrite (bind_ok _ _ _ _ _ He).
  unfold Steps.capture_error_details. run_monad. rewrite Hl. cbn.
  destruct (scenario_metrics c') as [m|] eqn:Es; cbn.
  - destruct (Qeq_bool (s_total_response_time m) 0); cbn.
    + split; [now left|reflexivity].
    + destruct (0 <? s_api_calls m) eqn:E0; cbn.
      * apply Z.ltb_lt in E0. rewrite py_div_nonzero by lia. cbn.
        destruct (Qle_bool _ _); cbn.
        -- split; [now left|reflexivity].
        -- split; [right; eauto|].
           intros H. destruct (Hm m eq_refl) as [Hc| ->].
           ++ apply H in Hc. lia.
           ++ cbn in E0. lia.
      * split; [now left|reflexivity].
  - split; [now left|reflexivity].
Qed.

End Averages.

(** C4. Averages over an empty Metrics Snapshot. (1) The expression of the
    hooks, total_response_time / max(api_calls, 1), is 0 on the empty
    snapshot; (2) on every snapshot it divides by a number that is at least
    1, so it returns a value and never raises, and the value is 0 whenever
    the cumulative time is 0. (3) The average lines of [after_scenario]
    (per scenario) and of [after_all] (run level) raise no division error on
    any snapshot, and on a snapshot without cumulative time they return
    without deriving or logging anything. (4) In a context that has its
    logger, the two response-time assertions of the steps return or fail
    with their assertion error, never with a division error, and they
    return when the scenario has made no call. *)
Theorem average_of_empty_snapshot :
  Env.average 0 0 = Ok 0%Q
  /\ (forall (total : Q) (calls : Z),
        exists q,
          Env.average total calls = Ok q
          /\ ~ (Env.max1 calls == 0)%Q
          /\ ((total == 0)%Q -> (q == 0)%Q))
  /\ (forall (label : string) (total : Q) (calls : Z) (st : Env.St),
        (fst (Env.log_average label total calls st) = Ok tt
         \/ exists what,
              fst (Env.log_average label total calls st)
              = Raise (AttributeError what))
        /\ ((total == 0)%Q ->
            Env.log_average label total calls st = (Ok tt, st)))
  /\ (forall (max_time : Z) (st : Env.St),
        is_Some (Env.logger (fst st)) ->
        (fst (Steps.step_assert_average_response_time max_time st) = Ok tt
         \/ exists msg,
              fst (Steps.step_assert_average_response_time max_time st)
              = Raise (AssertionError msg))
        /\ ((forall m, Env.scenario_metrics (fst st) = Some m ->
                       Env.s_api_calls m = 0) ->
            fst (Steps.step_assert_average_response_time max_time st) = Ok tt))
  /\ (forall (max_time : Z) (st : Env.St),
        is_Some (Env.logger (fst st)) ->
        (fst (Steps.step_assert_response_time max_time st) = Ok tt
         \/ exists msg,
              fst (Steps.step_assert_response_time max_time st)
              = Raise (AssertionError msg))
        /\ ((forall m, Env.scenario_metrics (fst st) = Some m ->
                       Env.s_api_calls m = 0) ->
            fst (Steps.step_assert_response_time max_time st) = Ok tt)).
Proof.
  split; [reflexivity|]. split; [|split; [|split]].
  - intros total calls. exists (total / Env.max1 calls)%Q.
    split; [apply average_returns|]. split.
    + unfold Env.max1, Qeq. cbn. lia.
    + intros H. rewrite H. unfold Qdiv. apply Qmult_0_l.
  - apply log_average_safe.
  - intros max_time st _. apply step_assert_average_response_time_safe.
  - intros max_time st _. apply step_assert_response_time_safe.
Qed.

(** ** Failure capture *)
Section FailureCapture.

Import Env.

Ltac run_monad :=
  unfold mbind, M_bind, bind, modify_ctx, logM, log, get_world, get_ctx,
    when, raise, ret, lift, attr, try_except, makedirs, write_file,
    note_captured;
  cbn.

(** What [capture_failure_details] does once the directory exists and the
    context has its logger. *)
Lemma capture_failure_details_spec (c : Context) (w : World) (sc : Scenario)
    (end_time duration : Q) (ls : list line) :
  makedirs_result w = Ok tt ->
  logger c = Some ls ->
  let d := failure_details c sc end_time duration w in
  let file := failure_file_name sc w in
  capture_failure_details sc end_time duration (c, w)
  = match open_result w with
    | Ok _ =>
        (Ok tt,
         (set_failure_files
            (set_logger c
               (Some (ls ++ [[Txt "[SAVE] Failure details saved to: ";
                              Txt file]])))
            (Some (default [] (failure_files c) ++ [file])),
          set_files (set_captured w (d :: captured w))
            (<[file := report d]> (files w))))
    | Raise e =>
        (Ok tt,
         (set_logger c
            (Some (ls ++ [[Txt "[ERROR] Failed to save failure details: ";
                           Txt (exn_text e)]])),
          set_captured w (d :: captured w)))
    end.
Proof.
  intros Hm Hl d file. unfold capture_failure_details. run_monad.
  rewrite Hm. cbn. destruct (open_result w) as [[]|e]; cbn; rewrite Hl; cbn;
    reflexivity.
Qed.



Lemma update_test_metrics_frame (f : TestMetrics -> TestMetrics) (w0 : World)
    (ff : option (list string)) :
  preserves (fun st => snd st = w0 /\ failure_files (fst st) = ff)
    (update_test_metrics f).
Proof.
  intros [c w] H. unfold update_test_metrics. cbn in *.
  destruct (test_metrics c); exact H.
Qed.

End FailureCapture.






(** ** The load steps *)
Section LoadSteps.

Import Env Load.

Lemma count_if_split {A : Type} (p : A -> bool) (l : list A) :
  count_if p l + count_if (fun r => negb (p r)) l = Z.of_nat (length l).
Proof.
  unfold count_if. induction l as [|a l IH]; [reflexivity|].
  cbn [List.filter length]. destruct (p a); cbn [negb length]; lia.
Qed.

Lemma count_if_le {A : Type} (p : A -> bool) (l : list A) :
  0 <= count_if p l <= Z.of_nat (length l).
Proof.
  unfold count_if. induction l as [|a l IH]; [cbn; lia|].
  cbn [List.filter length]. destruct (p a); cbn [length]; lia.
Qed.

(** Two disjoint tests count at most every element once, and exactly once
    when each element passes one of them. *)
Lemma count_if_disjoint {A : Type} (p q : A -> bool) (l : list A) :
  (forall a, p a = true -> q a = false) ->
  count_if p l + count_if q l <= Z.of_nat (length l)
  /\ ((forall a, In a l -> p a = true \/ q a = true) ->
      count_if p l + count_if q l = Z.of_nat (length l)).
Proof.
  intros Hd. unfold count_if. induction l as [|a l [IH1 IH2]];
    [cbn; split; [lia|reflexivity]|].
  cbn [List.filter length].
  destruct (p a) eqn:Ep.
  - rewrite (Hd a Ep). cbn [length]. split; [lia|].
    intros H. pose proof (IH2 (fun b Hb => H b (or_intror Hb))). lia.
  - destruct (q a) eqn:Eq; cbn [length].
    + split; [lia|]. intros H.
      pose proof (IH2 (fun b Hb => H b (or_intror Hb))). lia.
    + split; [lia|]. intros H.
      destruct (H a (or_introl eq_refl)); congruence.
Qed.

Lemma request_ids_length (count : Z) :
  length (request_ids count) = Z.to_nat count.
Proof. unfold request_ids. now rewrite length_map, length_seq. Qed.

Lemma Qgtb_pos (q : Q) : Qgtb q 0 = true <-> (0 < q)%Q.
Proof.
  unfold Qgtb. rewrite negb_true_iff. split.
  - intros H. apply Qnot_le_lt. intros L. apply Qle_bool_iff in L. congruence.
  - intros H. destruct (Qle_bool q 0) eqn:E; [|reflexivity].
    apply Qle_bool_iff in E. exfalso. exact (Qlt_not_le _ _ H E).
Qed.

(** The throughput is defined for every batch. *)
Lemma throughput_returns (n : nat) (total : Q) :
  throughput n total
  = Ok (if Qgtb total 0 then (inject_Z (Z.of_nat n) / total)%Q else 0%Q).
Proof.
  unfold throughput. destruct (Qgtb total 0) eqn:E; [|reflexivity].
  apply Qgtb_pos in E. unfold py_div.
  destruct (Qeq_bool total 0) eqn:E0; [|reflexivity].
  apply Qeq_bool_iff in E0. rewrite E0 in E. exfalso.
  exact (Qlt_irrefl _ E).
Qed.

Lemma pool_refuses (n : Z) :
  n <= 0 ->
  ThreadPoolExecutor n = Raise (ValueError "max_workers must be greater than 0").
Proof.
  intros H. unfold ThreadPoolExecutor.
  destruct (n <=? 0) eqn:E; [reflexivity|]. apply Z.leb_gt in E. lia.
Qed.

Lemma pool_accepts (n : Z) : 0 < n -> ThreadPoolExecutor n = Ok tt.
Proof.
  intros H. unfold ThreadPoolExecutor.
  destruct (n <=? 0) eqn:E; [|reflexivity]. apply Z.leb_le in E. lia.
Qed.

(** A batch of no request stops at the construction of the pool. *)
Lemma concurrent_requests_empty_batch (pool : Pool) (count : Z)
    (endpoint : string) (st : St) :
  count <= 0 ->
  fst (step_concurrent_requests_to_endpoint pool count endpoint st)
  = Raise (ValueError "max_workers must be greater than 0").
Proof.
  intros Hc. destruct st as [c w].
  destruct (ensure_logger_spec c w) as (c' & ls & He & Hl & _ & _).
  unfold step_concurrent_requests_to_endpoint.
  rewrite (bind_ok _ _ _ _ _ He).
  rewrite (bind_ok _ _ _ _ _ (logM_ok _ _ _ _ Hl)).
  rewrite (bind_ok _ _ _ _ _ (logM_next _ _ _ _)).
  cbv beta zeta. rewrite pool_refuses by lia. reflexivity.
Qed.

(** A batch of at least one request comes back with its aggregate. *)
Lemma concurrent_requests_batch (pool : Pool) (count : Z) (endpoint : string)
    (st : St) :
  1 <= count ->
  is_Some (ctx_base_url (fst st)) ->
  let results :=
    as_completed pool _ (List.map (make_request pool) (request_ids count)) in
  length results <> 0%nat ->
  exists avg st',
    step_concurrent_requests_to_endpoint pool count endpoint st
    = (Ok (mkConcurrentResults results (wall_time pool)
             (if Qgtb (wall_time pool) 0
              then (inject_Z (Z.of_nat (length results)) / wall_time pool)%Q
              else 0%Q)
             (count_if success results)
             (count_if (fun r => negb (success r)) results) avg), st').
Proof.
  intros Hc Hb results Hn. destruct st as [c w].
  destruct (ensure_logger_spec c w) as (c' & ls & He & Hl & _ & Hb').
  destruct (Hb' Hb) as [b Eb].
  unfold step_concurrent_requests_to_endpoint.
  rewrite (bind_ok _ _ _ _ _ He).
  rewrite (bind_ok _ _ _ _ _ (logM_ok _ _ _ _ Hl)).
  rewrite (bind_ok _ _ _ _ _ (logM_next _ _ _ _)).
  cbv beta zeta. rewrite pool_accepts by lia.
  rewrite (bind_ok (lift (Ok tt)) _ _ _ tt eq_refl).
  rewrite (bind_ok (attr ctx_base_url _) _ _ _ b)
    by (unfold attr; cbn; now rewrite Eb).
  fold results. rewrite throughput_returns.
  rewrite (bind_ok (lift (Ok _)) _ _ _ _ eq_refl).
  rewrite py_div_nonzero by lia.
  rewrite (bind_ok (lift (Ok _)) _ _ _ _ eq_refl).
  rewrite (bind_ok _ _ _ _ _ (logM_next _ _ _ _)).
  eexists. eexists. reflexivity.
Qed.

End LoadSteps.

(** ** The resource-creation batch *)
Section ResourceBatch.

Import Env Load.

Lemma collect_length {A : Type} (futures : list (result A)) (l : list A) :
  collect futures = Ok l -> length l = length futures.
Proof.
  revert l. induction futures as [|[a|e] futures IH]; intros l H.
  - injection H as <-. reflexivity.
  - cbn [collect] in H. unfold mbind, result_bind in H.
    destruct (collect futures) as [l'|e]; [|discriminate].
    injection H as <-. cbn [length]. f_equal. now apply IH.
  - discriminate H.
Qed.

Lemma collect_all_ok {A : Type} (futures : list (result A)) :
  Forall (fun r => exists a, r = Ok a) futures ->
  exists l, collect futures = Ok l.
Proof.
  induction 1 as [|r futures [a ->] _ [l IH]]; [now exists []|].
  exists (a :: l). cbn [collect]. unfold mbind, result_bind. now rewrite IH.
Qed.

(** The step returns exactly when the data set is not empty, the context
    has a base URL and every future of the batch has a result. *)
Lemma create_multiple_resources_run (pool : Pool) (data : list DataItem)
    (st : St) :
  exists (st1 : St) (st2 : list ResourceResult -> St),
    step_create_multiple_resources pool (Some data) st
    = match ThreadPoolExecutor (Z.min 5 (Z.of_nat (length data))) with
      | Raise e => (Raise e, st1)
      | Ok _ =>
          match ctx_base_url (fst st1) with
          | None => (Raise (AttributeError "base_url"), st1)
          | Some _ =>
              match collect (as_completed pool _
                               (List.map (create_resource pool)
                                  (firstn 10 data))) with
              | Raise e => (Raise e, st1)
              | Ok results => (Ok (performance_of pool results), st2 results)
              end
          end
      end
    /\ (is_Some (ctx_base_url (fst st)) -> is_Some (ctx_base_url (fst st1))).
Proof.
  destruct st as [c w].
  destruct (ensure_logger_spec c w) as (c' & ls & He & Hl & _ & Hb).
  unfold step_create_multiple_resources.
  rewrite (bind_ok _ _ _ _ _ He).
  rewrite (bind_ok _ _ _ _ _ (logM_ok _ _ _ _ Hl)).
  cbv beta zeta.
  rewrite (bind_ok _ _ _ _ _ (logM_next _ _ _ _)).
  eexists. eexists. split.
  { destruct (ThreadPoolExecutor _) as [[]|e];
      [|reflexivity].
    rewrite (bind_ok (lift (Ok tt)) _ _ _ tt eq_refl).
    cbn [fst].
    destruct (ctx_base_url c') as [b|] eqn:Eb.
    - rewrite (bind_ok (attr ctx_base_url _) _ _ _ b)
        by (unfold attr; cbn; now rewrite Eb).
      destruct (collect _) as [results|e] eqn:Ec.
      + rewrite (bind_ok (lift (Ok results)) _ _ _ results eq_refl).
        rewrite throughput_returns.
        rewrite (bind_ok (lift (Ok _)) _ _ _ _ eq_refl).
        rewrite (bind_ok _ _ _ _ _ (logM_next _ _ _ _)).
        cbn [fst ctx_base_url set_logger]. rewrite Eb. reflexivity.
      + cbn [fst ctx_base_url set_logger]. rewrite Eb. reflexivity.
    - cbn [fst ctx_base_url set_logger]. rewrite Eb.
      apply bind_raise. unfold attr. cbn. now rewrite Eb. }
  cbn. exact Hb.
Qed.

End ResourceBatch.

(** C3 (what the code does for n = 0). A batch of zero concurrent requests
    does not come back with an empty result: the worker pool is built with
    max_workers = min(5, 0) = 0, which the executor refuses, so the step
    raises ValueError from every state, before any throughput or count is
    derived. The same holds for any count below 1, and the
    resource-creation batch raises the same error on an empty data set. *)
Theorem concurrent_zero_requests_raises (pool : Load.Pool) (endpoint : string)
    (st : Env.St) :
  fst (Load.step_concurrent_requests_to_endpoint pool 0 endpoint st)
  = Raise (ValueError "max_workers must be greater than 0")
  /\ (forall count, count <= 0 ->
        fst (Load.step_concurrent_requests_to_endpoint pool count endpoint st)
        = Raise (ValueError "max_workers must be greater than 0"))
  /\ fst (Load.step_create_multiple_resources pool (Some []) st)
     = Raise (ValueError "max_workers must be greater than 0").
Proof.
  split; [|split].
  - apply concurrent_requests_empty_batch. lia.
  - intros count Hc. now apply concurrent_requests_empty_batch.
  - destruct (create_multiple_resources_run pool [] st)
      as (st1 & st2 & -> & _).
    reflexivity.
Qed.

(** C8, as stated, fails for the resource-creation batch: one item whose
    POST is answered 304 gives one result, counted neither as a success
    (2xx) nor as a failure (400 and above), so the two counts add up to 0
    and not to 1. *)
Lemma created_resources_counts_counterexample :
  exists res st',
    Load.step_create_multiple_resources (uniform_pool 304)
      (Some [example_item]) (example_context, example_world) = (Ok res, st')
    /\ length (Load.p_results res) = 1%nat
    /\ Load.p_success_count res + Load.p_failure_count res = 0
    /\ Load.p_success_count res + Load.p_failure_count res
       <> Z.of_nat (length (Load.p_results res)).
Proof.
  eexists. eexists. split; [vm_compute; reflexivity|].
  split; [reflexivity|]. split; [reflexivity|]. discriminate.
Qed.

(** C8, amended. (1) Concurrent requests: when the pool hands back every
    future exactly once, a batch of n >= 1 requests in a context with its
    logger and a base URL comes back with its aggregate: the results are
    the n per-request results in some order; a result is marked as success
    exactly when its status is 2xx; success_count is the number of results
    marked as success and failure_count the number of the others, so that
    success_count + failure_count = n; the total time is the wall
    time of the batch, and the throughput is n divided by it when it is
    positive and 0 otherwise. (2) In particular a batch of 10 requests
    comes back with exactly 10 results, and its two counts add up to 10.
    (3) Resource creation: a batch that comes back has one result per item
    of the first ten of the data set; success_count is the number of
    results with a status 2xx and failure_count the number of results with
    a status of 400 and above, so their sum is at most the number of
    results and equals it when every status is 2xx or at least 400; the
    throughput is the number of results divided by a positive wall time.
    (4) Such a batch does come back when the data set is not empty, the
    context has its logger and a base URL, and every item of the first ten
    carries a correlation id and gets an answer. *)
Theorem load_batch_aggregate :
  (forall (pool : Load.Pool) (count : Z) (endpoint : string) (st : Env.St),
     fair pool -> 1 <= count ->
     is_Some (Env.logger (fst st)) ->
     is_Some (Env.ctx_base_url (fst st)) ->
     exists res st',
       Load.step_concurrent_requests_to_endpoint pool count endpoint st
       = (Ok res, st')
       /\ Permutation (Load.results res)
            (List.map (Load.make_request pool) (Load.request_ids count))
       /\ length (Load.results res) = Z.to_nat count
       /\ (forall r, In r (Load.results res) ->
             Load.success r = true <-> 200 <= Load.rr_status_code r < 300)
       /\ Load.success_count res
          = Load.count_if Load.success (Load.results res)
       /\ Load.failure_count res
          = Load.count_if (fun r => negb (Load.success r)) (Load.results res)
       /\ Load.success_count res + Load.failure_count res = count
       /\ Load.total_time res = Load.wall_time pool
       /\ ((0 < Load.wall_time pool)%Q ->
           Load.requests_per_second res
           = (inject_Z count / Load.wall_time pool)%Q)
       /\ (~ (0 < Load.wall_time pool)%Q ->
           Load.requests_per_second res = 0%Q))
  /\ (forall (pool : Load.Pool) (endpoint : string) (st : Env.St),
        fair pool ->
        is_Some (Env.logger (fst st)) ->
        is_Some (Env.ctx_base_url (fst st)) ->
        exists res st',
          Load.step_concurrent_requests_to_endpoint pool 10 endpoint st
          = (Ok res, st')
          /\ length (Load.results res) = 10%nat
          /\ Load.success_count res + Load.failure_count res = 10)
  /\ (forall (pool : Load.Pool) (data : list Load.DataItem) (st st' : Env.St)
             (res : Load.PerformanceResults),
        fair pool ->
        Load.step_create_multiple_resources pool (Some data) st = (Ok res, st') ->
        length (Load.p_results res) = Nat.min 10 (length data)
        /\ Load.p_success_count res
           = Load.count_if
               (fun r => (200 <=? Load.pr_status_code r)
                         && (Load.pr_status_code r <? 300))
               (Load.p_results res)
        /\ Load.p_failure_count res
           = Load.count_if (fun r => 400 <=? Load.pr_status_code r)
               (Load.p_results res)
        /\ Load.p_success_count res + Load.p_failure_count res
           <= Z.of_nat (length (Load.p_results res))
        /\ ((forall r, In r (Load.p_results res) ->
               200 <= Load.pr_status_code r < 300
               \/ 400 <= Load.pr_status_code r) ->
            Load.p_success_count res + Load.p_failure_count res
            = Z.of_nat (length (Load.p_results res)))
        /\ Load.p_total_time res = Load.wall_time pool
        /\ ((0 < Load.wall_time pool)%Q ->
            Load.p_requests_per_second res
            = (inject_Z (Z.of_nat (length (Load.p_results res)))
               / Load.wall_time pool)%Q))
  /\ (forall (pool : Load.Pool) (data : list Load.DataItem) (st : Env.St),
        fair pool -> data <> [] ->
        is_Some (Env.logger (fst st)) ->
        is_Some (Env.ctx_base_url (fst st)) ->
        (forall d, In d (firstn 10 data) ->
           is_Some (Load.correlation_id d)
           /\ exists status t,
                Load.submit pool (Load.resource_endpoint d) d = (Ok status, t)) ->
        exists res st',
          Load.step_create_multiple_resources pool (Some data) st
          = (Ok res, st')).
Proof.
  assert (P1 : forall (pool : Load.Pool) (count : Z) (endpoint : string)
                      (st : Env.St),
     fair pool -> 1 <= count ->
     is_Some (Env.logger (fst st)) ->
     is_Some (Env.ctx_base_url (fst st)) ->
     exists res st',
       Load.step_concurrent_requests_to_endpoint pool count endpoint st
       = (Ok res, st')
       /\ Permutation (Load.results res)
            (List.map (Load.make_request pool) (Load.request_ids count))
       /\ length (Load.results res) = Z.to_nat count
       /\ (forall r, In r (Load.results res) ->
             Load.success r = true <-> 200 <= Load.rr_status_code r < 300)
       /\ Load.success_count res
          = Load.count_if Load.success (Load.results res)
       /\ Load.failure_count res
          = Load.count_if (fun r => negb (Load.success r)) (Load.results res)
       /\ Load.success_count res + Load.failure_count res = count
       /\ Load.total_time res = Load.wall_time pool
       /\ ((0 < Load.wall_time pool)%Q ->
           Load.requests_per_second res
           = (inject_Z count / Load.wall_time pool)%Q)
       /\ (~ (0 < Load.wall_time pool)%Q ->
           Load.requests_per_second res = 0%Q)).
  { intros pool count endpoint st Hf Hc _ Hb.
    pose proof (Hf _ (List.map (Load.make_request pool)
                        (Load.request_ids count))) as Hp.
    assert (Hlen : length (Load.as_completed pool _
                     (List.map (Load.make_request pool)
                        (Load.request_ids count))) = Z.to_nat count).
    { rewrite (Permutation_length Hp), length_map.
      apply request_ids_length. }
    destruct (concurrent_requests_batch pool count endpoint st Hc Hb)
      as (avg & st' & E); [rewrite Hlen; lia|].
    eexists. exists st'. split; [exact E|]. cbn.
    split; [exact Hp|]. split; [exact Hlen|].
    split.
    { intros r Hr. apply (Permutation_in _ Hp) in Hr.
      apply in_map_iff in Hr as (id & <- & _). unfold Load.make_request.
      destruct (Load.fetch pool id) as [[status|e] t];
        cbn [Load.success Load.rr_status_code].
      - unfold Load.is_2xx. rewrite andb_true_iff, Z.leb_le, Z.ltb_lt.
        reflexivity.
      - split; [discriminate|lia]. }
    split; [reflexivity|]. split; [reflexivity|].
    split; [rewrite count_if_split, Hlen; lia|].
    split; [reflexivity|]. split.
    - intros Hw. apply Qgtb_pos in Hw. rewrite Hw, Hlen.
      now rewrite Z2Nat.id by lia.
    - intros Hw. destruct (Env.Qgtb (Load.wall_time pool) 0) eqn:G;
        [|reflexivity].
      apply Qgtb_pos in G. contradiction. }
  split; [exact P1|]. split; [|split].
  - intros pool endpoint st Hf Hl Hb.
    destruct (P1 pool 10 endpoint st Hf ltac:(lia) Hl Hb)
      as (res & st' & E & _ & Hlen & _ & _ & _ & Hs & _).
    exists res, st'. split; [exact E|]. split; [exact Hlen|exact Hs].
  - intros pool data st st' res Hf E.
    destruct (create_multiple_resources_run pool data st)
      as (st1 & st2 & R & _).
    rewrite R in E. clear R.
    destruct (Load.ThreadPoolExecutor _) as [[]|e]; [|discriminate].
    destruct (Env.ctx_base_url (fst st1)); [|discriminate].
    destruct (Load.collect _) as [results|e] eqn:Ec; [|discriminate].
    injection E as <- _. unfold performance_of.
    cbn [Load.p_results Load.p_success_count Load.p_failure_count
         Load.p_total_time Load.p_requests_per_second].
    split.
    { rewrite (collect_length _ _ Ec), (Permutation_length (Hf _ _)),
        length_map.
      apply length_take. }
    split; [reflexivity|]. split; [reflexivity|].
    destruct (count_if_disjoint
                (fun r => Load.is_2xx (Load.pr_status_code r))
                (fun r => 400 <=? Load.pr_status_code r) results) as [Hle Heq].
    { intros a. unfold Load.is_2xx. intros H.
      apply andb_true_iff in H as [_ H]. apply Z.ltb_lt in H.
      apply Z.leb_gt. lia. }
    split; [exact Hle|]. split.
    { intros H. apply Heq. intros a Ha.
      destruct (H a Ha) as [H2|H4]; [left|right].
      - unfold Load.is_2xx. apply andb_true_iff.
        split; [apply Z.leb_le|apply Z.ltb_lt]; lia.
      - now apply Z.leb_le. }
    split; [reflexivity|].
    intros Hw. apply Qgtb_pos in Hw. now rewrite Hw.
  - intros pool data st Hf Hd _ Hb Hitems.
    destruct (create_multiple_resources_run pool data st)
      as (st1 & st2 & R & Hb1).
    rewrite R. clear R.
    rewrite pool_accepts by (destruct data; [congruence|cbn [length]; lia]).
    destruct (Hb1 Hb) as [b ->].
    destruct (collect_all_ok
                (Load.as_completed pool _
                   (List.map (Load.create_resource pool) (firstn 10 data))))
      as [results ->]; [|eauto].
    apply (Permutation_Forall (Permutation_sym (Hf _ _))).
    apply List.Forall_forall. intros r Hr.
    apply in_map_iff in Hr as (d & <- & Hd').
    destruct (Hitems d Hd') as ([cid Hcid] & status & t & Hs).
    unfold Load.create_resource. rewrite Hcid, Hs. eauto.
Qed.

(** ** The properties at the sample inputs *)



(** C4 at the example context, whose scenario has made no call. *)
Lemma average_of_empty_snapshot_witness :
  is_Some (Env.logger (fst (example_context, example_world)))
  /\ (forall m, Env.scenario_metrics (fst (example_context, example_world))
                = Some m -> Env.s_api_calls m = 0)
  /\ fst (Steps.step_assert_average_response_time 500
            (example_context, example_world)) = Ok tt
  /\ fst (Steps.step_assert_response_time 500
            (example_context, example_world)) = Ok tt.
Proof.
  assert (L : is_Some (Env.logger (fst (example_context, example_world))))
    by (eexists; reflexivity).
  assert (E : forall m,
            Env.scenario_metrics (fst (example_context, example_world))
            = Some m -> Env.s_api_calls m = 0).
  { intros m H. injection H as <-. reflexivity. }
  split; [exact L|]. split; [exact E|].
  destruct average_of_empty_snapshot as (_ & _ & _ & Ha & Hr).
  split.
  - apply (proj2 (Ha 500 (example_context, example_world) L) E).
  - apply (proj2 (Hr 500 (example_context, example_world) L) E).
Defined.



(** C7 on a short run: a scenario with two calls, then a second scenario. *)
Lemma scenario_calls_le_run_calls_witness :
  fst (Env.before_all (Env.empty_context, example_world)) = Ok tt
  /\ calls_inv (run example_run (started example_world))
  /\ scenario_calls (run example_run (started example_world)) = Some 1
  /\ run_calls (run example_run (started example_world)) = Some 3.
Proof.
  split; [reflexivity|].
  destruct scenario_calls_le_run_calls as [H _].
  split; [apply (H example_world example_run); reflexivity|].
  split; reflexivity.
Defined.

(** C8 (amended) for ten concurrent requests that are all answered 200. *)
Lemma load_batch_aggregate_witness :
  fair (uniform_pool 200)
  /\ is_Some (Env.logger (fst (example_context, example_world)))
  /\ is_Some (Env.ctx_base_url (fst (example_context, example_world)))
  /\ exists res st',
       Load.step_concurrent_requests_to_endpoint (uniform_pool 200) 10
         "/health" (example_context, example_world) = (Ok res, st')
       /\ length (Load.results res) = 10%nat
       /\ Load.success_count res + Load.failure_count res = 10.
Proof.
  assert (F : fair (uniform_pool 200)).
  { intros A l. apply Permutation_sym, Permutation_rev. }
  split; [exact F|].
  assert (L : is_Some (Env.logger (fst (example_context, example_world))))
    by (eexists; reflexivity).
  assert (B : is_Some (Env.ctx_base_url (fst (example_context, example_world))))
    by (eexists; reflexivity).
  split; [exact L|]. split; [exact B|].
  destruct load_batch_aggregate as (_ & H & _).
  exact (H (uniform_pool 200) "/health" (example_context, example_world)
           F L B).
Defined.



(** * Further properties of the client *)
Section ClientMore.

Import Urllib3.

(** A response that the attempt loop returns is the answer to its last
    attempt. *)
Lemma urlopen_returns_last_answer (server : nat -> attempt) (method : string) :
  forall (fuel : nat) (r : Retry) (n k : nat) (resp : Response),
    urlopen fuel server method r n = (Some (inr resp), k) ->
    exists j, k = S j /\ (n <= j)%nat /\ server j = Answer resp.
Proof.
  induction fuel as [|fuel IH]; intros r n k resp H; [discriminate|].
  cbn [urlopen] in H.
  destruct (server n) as [a|e] eqn:S0.
  - destruct (is_retry r method (status_code a) (has_retry_after a)).
    + destruct (increment r method (Answer a)) as [exc|r'].
      * destruct (raise_on_status r); [discriminate|].
        injection H as <- <-. eauto.
      * apply IH in H as (j & -> & Hj & Hs). exists j. repeat split; [lia|auto].
    + injection H as <- <-. eauto.
  - destruct (increment r method (Fails e)) as [exc|r']; [discriminate|].
    apply IH in H as (j & -> & Hj & Hs). exists j. repeat split; [lia|auto].
Qed.

Lemma lookup_dict_update (d other : gmap string string) (k : string) :
  dict_update d other !! k
  = match other !! k with
    | Some v => Some v
    | None => d !! k
    end.
Proof.
  unfold dict_update. rewrite lookup_union.
  destruct (other !! k), (d !! k); reflexivity.
Qed.

End ClientMore.

(** X1. Header and timeout merge of [_make_request]: a header passed by the
    caller wins over the default of the same name, every other default
    header is passed on as it is, and the timeout is the caller's when
    given and the client's otherwise. *)
Theorem request_headers_precedence (c : Api.BaseAPI) (kwargs : Api.Kwargs)
    (k : string) :
  Api.request_headers c kwargs !! k
  = match Api.kw_headers kwargs ≫= (fun h => h !! k) with
    | Some v => Some v
    | None => Api._get_default_headers c !! k
    end
  /\ Api.kw_timeout (Api.merged_kwargs c kwargs)
     = Some (default (Api.timeout c) (Api.kw_timeout kwargs)).
Proof.
  split.
  - unfold Api.request_headers, Api.headers_of, Api.merged_kwargs.
    cbn [Api.kw_headers default from_option id].
    destruct (Api.kw_headers kwargs) as [h|]; cbn [mbind option_bind];
      [|reflexivity].
    unfold Api.dict_truthy.
    destruct (bool_decide (h = ∅)) eqn:E; cbn [negb].
    + apply bool_decide_eq_true in E. subst h. now rewrite lookup_empty.
    + apply lookup_dict_update.
  - unfold Api.merged_kwargs. cbn [Api.kw_timeout].
    destruct (Api.kw_timeout kwargs); reflexivity.
Qed.

(** X2. A call that returns a response is tracked in full: the client
    afterwards holds this request, this response and the measured time in
    its three slots and is otherwise unchanged; and when the server answers
    no attempt with a redirect status, the response returned is the answer
    to the last attempt made on the wire. *)
Theorem successful_call_is_tracked (c : Api.BaseAPI) (net : Network)
    (method endpoint : string) (kwargs : Api.Kwargs) (o : Api.Outcome)
    (resp : Response) :
  Api._make_request c net method endpoint kwargs = Some o ->
  Api.value o = Ok resp ->
  Api.client o
  = Api.mkBaseAPI (Api.base_url c) (Api.auth_token c) (Api.timeout c)
      (Api.retry_count c) (Api.session c)
      (Some (Api.mkRequestRecord method (Api._build_url c endpoint)
               (Api.merged_kwargs c kwargs)))
      (Some resp) (Some (elapsed net))
  /\ (no_redirect (serve net (Api.wire_request c method endpoint kwargs)) ->
      exists j,
        Api.wire_attempts o = S j
        /\ serve net (Api.wire_request c method endpoint kwargs) j
           = Answer resp).
Proof.
  intros Ho Hv. rewrite make_request_loop in Ho. cbv zeta in Ho.
  destruct (Urllib3.urlopen _ _ method _ 0) as [[[exc|r]|] k] eqn:U;
    try discriminate; injection Ho as <-; cbn in Hv; [discriminate|].
  injection Hv as ->.
  split; [reflexivity|]. intros _.
  apply urlopen_returns_last_answer in U as (j & -> & _ & Hs). eauto.
Qed.

(** X3. A reset forgets the correlation id: [set_correlation_id] puts the
    id into the session headers, a following [reset_session] gives the same
    client as a reset without it, with no X-Correlation-Id header left, and
    resetting twice is resetting once. *)
Theorem reset_session_drops_correlation_id (c : Api.BaseAPI) (id : string) :
  Requests.headers (Api.session (Api.set_correlation_id c id))
    !! "X-Correlation-Id" = Some id
  /\ Api.reset_session (Api.set_correlation_id c id) = Api.reset_session c
  /\ Requests.headers (Api.session (Api.reset_session
                                      (Api.set_correlation_id c id)))
       !! "X-Correlation-Id" = None
  /\ Api.reset_session (Api.reset_session c) = Api.reset_session c.
Proof.
  split; [|split; [|split]].
  - cbn. rewrite lookup_dict_update. now rewrite lookup_singleton_eq.
  - reflexivity.
  - cbn. rewrite lookup_dict_update. unfold Api._get_default_headers.
    by simplify_map_eq.
  - reflexivity.
Qed.

(** ** Slashes in URLs *)
Section Slashes.

Lemma list_ascii_of_string_app (a b : string) :
  list_ascii_of_string (a +:+ b)
  = list_ascii_of_string a ++ list_ascii_of_string b.
Proof.
  induction a as [|ch a IH]; [reflexivity|].
  change (String ch a +:+ b) with (String ch (a +:+ b)).
  cbn [list_ascii_of_string]. now rewrite IH.
Qed.

Lemma string_rev_snoc (s : string) :
  string_rev (s +:+ "/") = String "/" (string_rev s).
Proof.
  unfold string_rev. rewrite list_ascii_of_string_app, rev_app_distr.
  reflexivity.
Qed.

Lemma string_rev_involutive (s : string) : string_rev (string_rev s) = s.
Proof.
  unfold string_rev.
  rewrite list_ascii_of_string_of_list_ascii, rev_involutive.
  apply string_of_list_ascii_of_string.
Qed.

Lemma lstrip_slash_other (ch : ascii) (s : string) :
  ch <> "/"%char -> lstrip_slash (String ch s) = String ch s.
Proof.
  intros H.
  destruct ch as [[] [] [] [] [] [] [] []]; try reflexivity.
  now contradiction H.
Qed.

(** What [lstrip('/')] returns does not begin with a slash. *)
Lemma lstrip_slash_no_leading (s t : string) :
  lstrip_slash s <> String "/" t.
Proof.
  induction s as [|ch s IH]; [discriminate|].
  destruct (Ascii.eqb_spec ch "/") as [->|Hne]; [exact IH|].
  rewrite lstrip_slash_other by assumption. congruence.
Qed.

(** What [rstrip('/')] returns does not end with a slash. *)
Lemma rstrip_slash_no_trailing (s t : string) : rstrip_slash s <> t +:+ "/".
Proof.
  unfold rstrip_slash. intros H.
  apply (f_equal string_rev) in H.
  rewrite string_rev_involutive, string_rev_snoc in H.
  exact (lstrip_slash_no_leading _ _ H).
Qed.

End Slashes.

(** X4. Slashes at the seam of base URL and endpoint do not matter: an
    endpoint with a leading slash gives the same URL as without it, a base
    URL passed with a trailing slash gives the same client as without it,
    and the stored base URL never ends with a slash. *)
Theorem build_url_ignores_slashes :
  (forall (c : Api.BaseAPI) (endpoint : string),
     Api._build_url c ("/" +:+ endpoint) = Api._build_url c endpoint)
  /\ (forall (base_url auth_token : string) (timeout retry_count : Z),
        Api.init (base_url +:+ "/") auth_token timeout retry_count
        = Api.init base_url auth_token timeout retry_count)
  /\ (forall (base_url auth_token : string) (timeout retry_count : Z)
             (s : string),
        Api.base_url (Api.init base_url auth_token timeout retry_count)
        <> s +:+ "/").
Proof.
  split; [|split].
  - reflexivity.
  - intros b tok to rc. unfold Api.init, rstrip_slash.
    now rewrite string_rev_snoc.
  - intros b tok to rc s. cbn. apply rstrip_slash_no_trailing.
Qed.

(** X5. [assert_status_code] passes exactly when there is a last response
    whose status is the expected one and is not an error status (400 to
    599): a response with an error status counts as no response, so an
    expected status in that range always fails the assertion. *)
Theorem assert_status_code_passes_iff (c : Api.BaseAPI) (expected_status : Z) :
  (Checks.assert_status_code c expected_status = Ok tt
   <-> exists r,
         Api.last_response c = Some r
         /\ status_code r = expected_status
         /\ ~ (400 <= expected_status < 600))
  /\ (400 <= expected_status < 600 ->
      exists msg,
        Checks.assert_status_code c expected_status
        = Raise (AssertionError msg)).
Proof.
  assert (Hok : forall r, Checks.ok r = true <-> ~ (400 <= status_code r < 600)).
  { intros r. unfold Checks.ok. rewrite negb_true_iff, andb_false_iff.
    rewrite Z.leb_gt, Z.ltb_ge. lia. }
  unfold Checks.assert_status_code. split.
  - split.
    + destruct (Api.last_response c) as [r|]; [|discriminate].
      destruct (Checks.ok r) eqn:E; cbn [negb]; [|discriminate].
      destruct (status_code r =? expected_status) eqn:E2; cbn [negb];
        [|discriminate].
      intros _. apply Z.eqb_eq in E2. exists r.
      split; [reflexivity|]. split; [exact E2|].
      rewrite <- E2. now apply Hok.
    + intros (r & -> & Hs & Hn). rewrite <- Hs in Hn.
      apply Hok in Hn. rewrite Hn. cbn [negb].
      apply Z.eqb_eq in Hs. now rewrite Hs.
  - intros He. destruct (Api.last_response c) as [r|]; [|eauto].
    destruct (Checks.ok r) eqn:E; cbn [negb]; [|eauto].
    destruct (status_code r =? expected_status) eqn:E2; cbn [negb]; [|eauto].
    apply Z.eqb_eq in E2. apply Hok in E. lia.
Qed.

(** X6. [assert_response_time_under] needs a time that is not zero: when no
    response time is stored, or the stored time is exactly zero, it raises
    AssertionError for every threshold (a zero time is reported as
    missing), so that a check that passes had a stored time that is not
    zero; and a stored time that is not zero and, in milliseconds, at most
    a threshold below 2^53 passes. *)
Theorem assert_response_time_under_zero_is_missing (c : Api.BaseAPI)
    (max_time_ms : Z) :
  (Api.last_response_time c = None
   \/ (exists t, Api.last_response_time c = Some t /\ (t == 0)%Q) ->
   exists msg,
     Checks.assert_response_time_under c max_time_ms
     = Raise (AssertionError msg))
  /\ (Checks.assert_response_time_under c max_time_ms = Ok tt ->
      exists t, Api.last_response_time c = Some t /\ ~ (t == 0)%Q)
  /\ (forall t,
        Api.last_response_time c = Some t ->
        ~ (t == 0)%Q ->
        Z.abs max_time_ms <= 2 ^ 53 ->
        (t * 1000 <= inject_Z max_time_ms)%Q ->
        Checks.assert_response_time_under c max_time_ms = Ok tt).
Proof.
  unfold Checks.assert_response_time_under, Env.Qgtb. split; [|split].
  - intros [-> | (t & -> & Hz)]; [eauto|].
    apply Qeq_bool_iff in Hz. rewrite Hz. eauto.
  - destruct (Api.last_response_time c) as [t|]; [|discriminate].
    destruct (Qeq_bool t 0) eqn:E0; [discriminate|].
    intros _. exists t. split; [reflexivity|].
    intros H. apply Qeq_bool_iff in H. congruence.
  - intros t -> Hz _ Hle.
    destruct (Qeq_bool t 0) eqn:E0; [now apply Qeq_bool_iff in E0|].
    apply Qle_bool_iff in Hle. now rewrite Hle.
Qed.

(** X7. [validate_account_data] accepts a dictionary exactly when it has
    the keys customerId, accountType and currency, whatever their values,
    and so accepts every dictionary made by [create_sample_account_data]. *)
Theorem validate_account_data_iff :
  (forall account_data : gmap string string,
     Facade.validate_account_data account_data = true
     <-> is_Some (account_data !! "customerId")
         /\ is_Some (account_data !! "accountType")
         /\ is_Some (account_data !! "currency"))
  /\ (forall customer_id account_type currency initial_balance,
        Facade.validate_account_data
          (Facade.create_sample_account_data customer_id account_type
             currency initial_balance) = true).
Proof.
  assert (H : forall account_data : gmap string string,
     Facade.validate_account_data account_data = true
     <-> is_Some (account_data !! "customerId")
         /\ is_Some (account_data !! "accountType")
         /\ is_Some (account_data !! "currency")).
  { intros d. unfold Facade.validate_account_data. cbn [forallb].
    rewrite !andb_true_iff, !bool_decide_eq_true. tauto. }
  split; [exact H|].
  intros a b c d. apply H. unfold Facade.create_sample_account_data.
  repeat split; eexists; by simplify_map_eq.
Qed.

(** ** Tracking and delegation *)
Section Tracking.

(** The client after a call that returned a response. *)
Lemma tracked_on_success (c : Api.BaseAPI) (net : Network)
    (method endpoint : string) (kwargs : Api.Kwargs) (o : Api.Outcome)
    (resp : Response) :
  Api._make_request c net method endpoint kwargs = Some o ->
  Api.value o = Ok resp ->
  Api.client o
  = Api.mkBaseAPI (Api.base_url c) (Api.auth_token c) (Api.timeout c)
      (Api.retry_count c) (Api.session c)
      (Some (Api.mkRequestRecord method (Api._build_url c endpoint)
               (Api.merged_kwargs c kwargs)))
      (Some resp) (Some (elapsed net)).
Proof.
  intros Ho Hv. rewrite make_request_loop in Ho. cbv zeta in Ho.
  destruct (Urllib3.urlopen _ _ method _ 0) as [[[exc|r]|] k] eqn:U;
    try discriminate; injection Ho as <-; cbn in Hv; [discriminate|].
  injection Hv as ->. reflexivity.
Qed.

(** The client after a call that raised. *)
Lemma tracked_on_failure (c : Api.BaseAPI) (net : Network)
    (method endpoint : string) (kwargs : Api.Kwargs) (o : Api.Outcome)
    (e : exn) :
  Api._make_request c net method endpoint kwargs = Some o ->
  Api.value o = Raise e ->
  Api.client o
  = Api.set_last_request c
      (Api.mkRequestRecord method (Api._build_url c endpoint)
         (Api.merged_kwargs c kwargs)).
Proof.
  intros Ho Hv. rewrite make_request_loop in Ho. cbv zeta in Ho.
  destruct (Urllib3.urlopen _ _ method _ 0) as [[[exc|r]|] k] eqn:U;
    try discriminate; injection Ho as <-; cbn in Hv; [reflexivity|].
  discriminate Hv.
Qed.

(** The correlation header of a call without header overrides is the
    session's. *)
Lemma wire_correlation_header (c : Api.BaseAPI) (method endpoint : string) :
  p_headers (Api.wire_request c method endpoint Api.no_kwargs)
    !! "X-Correlation-Id"
  = Requests.headers (Api.session c) !! "X-Correlation-Id".
Proof.
  unfold Api.wire_request, Requests.prepare. cbn [p_headers].
  rewrite lookup_dict_update.
  unfold Api.request_headers, Api.headers_of, Api.merged_kwargs.
  cbn [Api.kw_headers Api.no_kwargs default from_option id].
  unfold Api._get_default_headers. by simplify_map_eq.
Qed.

End Tracking.

(** X8. Delegation through the [APIClient]. For [get_account]: when the
    endpoint object returns a response, the client's three tracking slots
    are those of the endpoint object, with that response and the measured
    time; when it raises, the client's own state is exactly what it was
    (its [last_request] does not name the failed call). The call never
    touches the client's own session, and it is sent through the endpoint
    object's session: a correlation id set on the client is on the wire of
    the client's direct calls and not on the wire of the delegated ones. *)
Theorem delegated_call_tracking :
  (forall (cl : Facade.APIClient) (net : Network) (account_id : string)
          (d : Facade.Delegated),
     Facade.get_account cl net account_id = Some d ->
     (forall r, Facade.answer d = Ok r ->
        Api.last_response (Facade.self (Facade.after d)) = Some r
        /\ Api.last_response_time (Facade.self (Facade.after d))
           = Some (elapsed net)
        /\ Api.last_request (Facade.self (Facade.after d))
           = Api.last_request (Facade.accounts (Facade.after d))
        /\ Api.last_response (Facade.self (Facade.after d))
           = Api.last_response (Facade.accounts (Facade.after d)))
     /\ (forall e, Facade.answer d = Raise e ->
           Facade.self (Facade.after d) = Facade.self cl
           /\ option_map Api.rq_url
                (Api.last_request (Facade.accounts (Facade.after d)))
              = Some (Api._build_url (Facade.accounts cl)
                        ("/accounts/" +:+ account_id)))
     /\ Api.session (Facade.self (Facade.after d))
        = Api.session (Facade.self cl))
  /\ (forall (base_url auth_token : string) (timeout retry_count : Z)
             (id method endpoint : string),
        let cl := Facade.set_correlation_id
                    (Facade.init base_url auth_token timeout retry_count) id in
        p_headers (Api.wire_request (Facade.self cl) method endpoint
                     Api.no_kwargs) !! "X-Correlation-Id" = Some id
        /\ p_headers (Api.wire_request (Facade.accounts cl) method endpoint
                        Api.no_kwargs) !! "X-Correlation-Id" = None).
Proof.
  split.
  - intros cl net account_id d H.
    unfold Facade.get_account, Facade.accounts_get_account, Api.get in H.
    cbn [Api.dict_truthy] in H.
    destruct (Api._make_request _ _ _ _ _) as [o|] eqn:Ho; [|discriminate].
    destruct (Api.value o) as [resp|e] eqn:Hv; injection H as <-.
    + pose proof (tracked_on_success _ _ _ _ _ _ _ Ho Hv) as Hc.
      cbn. rewrite Hc. cbn.
      split; [|split; [intros e [=]|reflexivity]].
      intros r [= <-]. repeat split.
    + pose proof (tracked_on_failure _ _ _ _ _ _ _ Ho Hv) as Hc.
      cbn. rewrite Hc. cbn.
      split; [intros r [=]|]. split; [|reflexivity].
      intros e' _. split; reflexivity.
  - intros b tok to rc id method endpoint cl. subst cl.
    rewrite !wire_correlation_header. split.
    + cbn. rewrite lookup_dict_update. now rewrite lookup_singleton_eq.
    + reflexivity.
Qed.

(** * Further properties of the failure reporter *)
Section ReportStrings.

Import Env.

Lemma length_map_string (f : ascii -> ascii) (s : string) :
  String.length (map_string f s) = String.length s.
Proof. induction s as [|ch s IH]; [reflexivity|]. cbn. now rewrite IH. Qed.

Lemma length_substring_0 (n : nat) (s : string) :
  String.length (substring 0 n s) = Nat.min n (String.length s).
Proof.
  revert s. induction n as [|n IH]; intros [|ch s]; try reflexivity.
  cbn. now rewrite IH.
Qed.

Lemma length_string_app (a b : string) :
  String.length (a +:+ b) = (String.length a + String.length b)%nat.
Proof.
  induction a as [|ch a IH]; [reflexivity|].
  change (String ch a +:+ b) with (String ch (a +:+ b)).
  cbn [String.length]. now rewrite IH.
Qed.

Lemma get_map_string (f : ascii -> ascii) (s : string) (i : nat) :
  String.get i (map_string f s) = option_map f (String.get i s).
Proof.
  revert i. induction s as [|ch s IH]; intros [|i]; try reflexivity.
  cbn. apply IH.
Qed.

Lemma get_substring_0 (n : nat) (s : string) (i : nat) (ch : ascii) :
  String.get i (substring 0 n s) = Some ch -> String.get i s = Some ch.
Proof.
  revert s i. induction n as [|n IH]; intros [|c s] [|i] H; cbn in *;
    try discriminate; auto.
Qed.

(** What the two character maps of [safe_scenario_name] leave. *)
Lemma safe_character (c : ascii) :
  let x := space_to_underscore (keep_safe c) in
  isalnum x = true \/ x = "-"%char \/ x = "_"%char.
Proof.
  destruct c as [[] [] [] [] [] [] [] []]; cbn; auto.
Qed.

End ReportStrings.

(** X9. The name that [capture_failure_details] puts into the file name is
    safe for a file name: for a scenario name of ASCII characters it has at
    most 50 characters (the first 50 of the scenario name, character by
    character), and each of them is an ASCII letter or digit, a hyphen or
    an underscore, so it contains no space, no dot and no path
    separator. *)
Theorem safe_scenario_name_is_safe (scenario_name : string) :
  forallb (fun ch => (nat_of_ascii ch <? 128)%nat)
    (list_ascii_of_string scenario_name) = true ->
  String.length (Env.safe_scenario_name scenario_name)
  = Nat.min 50 (String.length scenario_name)
  /\ (String.length (Env.safe_scenario_name scenario_name) <= 50)%nat
  /\ forall i ch,
       String.get i (Env.safe_scenario_name scenario_name) = Some ch ->
       Env.isalnum ch = true \/ ch = "-"%char \/ ch = "_"%char.
Proof.
  intros _. unfold Env.safe_scenario_name.
  rewrite length_substring_0, !length_map_string.
  split; [reflexivity|]. split; [lia|].
  intros i ch H. apply get_substring_0 in H.
  rewrite !get_map_string in H.
  destruct (String.get i scenario_name) as [c|]; [|discriminate].
  injection H as <-. apply safe_character.
Qed.

(** X10. The response body kept in a Failure Record is bounded: when the
    response can be read, the body is the text itself if that has at most
    2000 characters, and otherwise its first 2000 characters followed by
    three dots, 2003 characters in all; status, headers and URL are copied
    as they are. *)
Theorem api_response_body_is_bounded (r : Env.ResponseObj)
    (a : Env.ApiResponse) :
  Env.read_api_response r = Ok a ->
  exists t,
    Env.ro_text r = Ok t
    /\ Env.ro_status_code r = Ok (Env.ar_status_code a)
    /\ Env.ro_headers r = Ok (Env.ar_headers a)
    /\ Env.ro_url r = Ok (Env.ar_url a)
    /\ (String.length (Env.ar_body a) <= 2003)%nat
    /\ ((String.length t <= 2000)%nat -> Env.ar_body a = t)
    /\ ((2000 < String.length t)%nat ->
        Env.ar_body a = substring 0 2000 t +:+ "..."
        /\ String.length (Env.ar_body a) = 2003%nat).
Proof.
  unfold Env.read_api_response. unfold mbind, result_bind.
  destruct (Env.ro_status_code r) as [sc|]; [|discriminate].
  destruct (Env.ro_headers r) as [h|]; [|discriminate].
  destruct (Env.ro_url r) as [u|]; [|discriminate].
  destruct (Env.ro_text r) as [t|]; [|discriminate].
  intros [= <-]. exists t. cbn [Env.ar_status_code Env.ar_headers Env.ar_url
                               Env.ar_body].
  repeat (split; [reflexivity|]).
  assert (L : String.length (substring 0 2000 t +:+ "...")
              = (Nat.min 2000 (String.length t) + 3)%nat).
  { rewrite length_string_app, length_substring_0. reflexivity. }
  destruct (2000 <? String.length t)%nat eqn:E.
  - apply Nat.ltb_lt in E. split; [rewrite L; lia|].
    split; [lia|]. intros _. split; [reflexivity|]. rewrite L. lia.
  - apply Nat.ltb_ge in E. split; [lia|]. split; [reflexivity|]. lia.
Qed.

(** X11. An error response is left out of the Failure Record: when the
    context's response is one received by [requests] with a status from 400
    to 599, the record has neither the response entry nor the marker,
    because such a response counts as false; with a status below 400 the
    record has the response entry with that status, its headers and
    URL. *)
Theorem error_response_is_left_out (c : Env.Context) (sc : Env.Scenario)
    (end_time duration : Q) (w : Env.World) (r : Response) :
  Env.response c = Some (Env.of_response r) ->
  let d := Env.failure_details c sc end_time duration w in
  (400 <= status_code r < 600 ->
   Env.fd_api_response d = None /\ Env.fd_api_response_error d = None)
  /\ (status_code r < 400 ->
      Env.fd_api_response_error d = None
      /\ exists a,
           Env.fd_api_response d = Some a
           /\ Env.ar_status_code a = status_code r
           /\ Env.ar_headers a = resp_headers r
           /\ Env.ar_url a = resp_url r).
Proof.
  intros Hr d. subst d. unfold Env.failure_details.
  cbn [Env.fd_api_response Env.fd_api_response_error].
  unfold Env.api_response_entries. rewrite Hr.
  cbn [Env.of_response Env.ro_truthy]. unfold response_truthy. split.
  - intros Hs.
    assert (E : (400 <=? status_code r) && (status_code r <? 600) = true).
    { apply andb_true_iff. split; [apply Z.leb_le|apply Z.ltb_lt]; lia. }
    rewrite E. split; reflexivity.
  - intros Hs.
    assert (E : (400 <=? status_code r) = false) by (apply Z.leb_gt; lia).
    rewrite E. cbn. split; [reflexivity|]. eexists. repeat split.
Qed.

(** X12. A report that cannot be written is not listed: when the failures
    directory exists but the report file cannot be opened,
    [capture_failure_details] still returns, the file system and the list
    of failure files are as they were, and the only trace in the context is
    the error line in the log. *)
Theorem unwritten_report_is_not_listed (c : Env.Context) (w : Env.World)
    (sc : Env.Scenario) (end_time duration : Q) (ls : list Env.line)
    (err : exn) :
  Env.makedirs_result w = Ok tt ->
  Env.logger c = Some ls ->
  Env.open_result w = Raise err ->
  let out := Env.capture_failure_details sc end_time duration (c, w) in
  fst out = Ok tt
  /\ Env.files (snd (snd out)) = Env.files w
  /\ Env.failure_files (fst (snd out)) = Env.failure_files c
  /\ fst (snd out)
     = Env.set_logger c
         (Some (ls ++ [[Env.Txt "[ERROR] Failed to save failure details: ";
                        Env.Txt (Env.exn_text err)]])).
Proof.
  intros Hm Hl Ho out. subst out.
  rewrite (capture_failure_details_spec c w sc end_time duration ls Hm Hl), Ho.
  repeat split.
Qed.



(** * The GET step *)


(** * Reset, closing hook and batches *)

(** X15. Resetting the environment forgets the scenario's timings and
    nothing else of the metrics: in a context with its logger the step
    returns, the response and the last error are None, the run snapshot and
    the list of failure files are as they were, a scenario snapshot that
    exists is replaced by an empty one, and right after the reset both
    response-time assertions return without raising, for every limit. *)
Theorem reset_forgets_scenario_timings (c : Env.Context) (w : Env.World)
    (ls : list Env.line) :
  Env.logger c = Some ls ->
  let out := Steps.step_reset_environment (c, w) in
  let c' := fst (snd out) in
  fst out = Ok tt
  /\ snd (snd out) = w
  /\ Env.response c' = None
  /\ Env.last_error c' = None
  /\ Env.test_metrics c' = Env.test_metrics c
  /\ Env.failure_files c' = Env.failure_files c
  /\ Env.scenario_metrics c'
     = (fun _ => Env.fresh_scenario_metrics (Env.clock w))
         <$> Env.scenario_metrics c
  /\ forall max_time,
       fst (Steps.step_assert_response_time max_time (snd out)) = Ok tt
       /\ fst (Steps.step_assert_average_response_time max_time (snd out))
          = Ok tt.
Proof.
  intros Hl out c'. subst c' out.
  unfold Steps.step_reset_environment, Steps.step_assert_response_time,
    Steps.step_assert_average_response_time, Steps.ensure_logger.
  unfold mbind, Env.M_bind, Env.bind, Env.modify_ctx, Env.logM, Env.log,
    Env.get_world, Env.get_ctx, Env.raise, Env.ret, Env.attr.
  repeat (cbn; rewrite ?Hl).
  destruct (Env.scenario_metrics c) eqn:Es;
    repeat (cbn; rewrite ?Es, ?Hl); repeat split; reflexivity.
Qed.

Section ClosingHook.

Import Env.

(** With a logger, the average lines only add to the log. *)
Lemma log_average_logs (label : string) (total : Q) (calls : Z) (c : Context)
    (w : World) (ls : list line) :
  exists ls',
    log_average label total calls (set_logger c (Some ls), w)
    = (Ok tt, (set_logger c (Some ls'), w)).
Proof.
  unfold log_average, when. destruct (Qgtb total 0); [|eexists; reflexivity].
  rewrite average_returns.
  rewrite (bind_ok (lift (Ok _)) _ _ _ _ eq_refl).
  rewrite (bind_ok _ _ _ _ _ (logM_next _ _ _ _)).
  rewrite logM_next. eexists. reflexivity.
Qed.

Lemma pass_rate_returns (m : TestMetrics) : exists rate, pass_rate m = Ok rate.
Proof.
  unfold pass_rate. destruct (0 <? total_scenarios m) eqn:E; [|eauto].
  apply Z.ltb_lt in E. rewrite py_div_nonzero by lia. cbn. eauto.
Qed.

End ClosingHook.

(** X16. The closing hook and the failure summary: in a context with its
    run snapshot and its logger, [after_all] returns without raising, also
    when no scenario ran (the pass rate is then 0) and when the summary
    cannot be written. The summary file is written exactly when at least
    one scenario failed, at least one failure file is listed and the file
    can be opened; in every other case the file system is as it was. The
    run snapshot and the list of failure files are not changed. *)
Theorem after_all_writes_summary_iff (c : Env.Context) (w : Env.World)
    (m : Env.TestMetrics) (ls : list Env.line) :
  Env.test_metrics c = Some m ->
  Env.logger c = Some ls ->
  let out := Env.after_all (c, w) in
  let wanted :=
    (0 <? Env.failed_scenarios m)
    && match Env.failure_files c, Env.open_result w with
       | Some (_ :: _), Ok _ => true
       | _, _ => false
       end in
  fst out = Ok tt
  /\ Env.test_metrics (fst (snd out)) = Some m
  /\ Env.failure_files (fst (snd out)) = Env.failure_files c
  /\ (wanted = true ->
      exists content,
        Env.files (snd (snd out))
        = <[Env.summary_file_name w := content]> (Env.files w))
  /\ (wanted = false -> Env.files (snd (snd out)) = Env.files w).
Proof.
  intros Ht Hl out wanted. subst out wanted.
  destruct (pass_rate_returns m) as [rate Hr].
  unfold Env.after_all.
  rewrite (bind_ok Env.get_world _ (c, w) (c, w) w eq_refl).
  rewrite (bind_ok (Env.attr Env.test_metrics _) _ _ _ m)
    by (unfold Env.attr; cbn; now rewrite Ht).
  rewrite Hr. rewrite (bind_ok (Env.lift (Ok rate)) _ _ _ _ eq_refl).
  rewrite (bind_ok _ _ _ _ _ (logM_ok _ _ _ _ Hl)).
  do 5 rewrite (bind_ok _ _ _ _ _ (logM_next _ _ _ _)).
  match goal with
  | |- context [(Env.log_average ?l ?t ?n ≫= _)
                  (Env.set_logger c (Some ?x), w)] =>
      destruct (log_average_logs l t n c w x) as [ls' Ela]
  end.
  rewrite (bind_ok _ _ _ _ _ Ela).
  rewrite (bind_ok Env.get_ctx _ (Env.set_logger c (Some ls'), w) _ _ eq_refl).
  cbn [fst Env.failure_files Env.set_logger].
  unfold Env.when, Env.create_failure_summary.
  unfold mbind, Env.M_bind, Env.bind, Env.modify_ctx, Env.logM, Env.log,
    Env.get_world, Env.get_ctx, Env.raise, Env.ret, Env.attr, Env.lift,
    Env.try_except, Env.write_file.
  cbn.
  destruct (0 <? Env.failed_scenarios m); cbn;
    [destruct (Env.failure_files c) as [[|f fs]|] eqn:Ef; cbn; rewrite ?Ef;
     cbn;
     [| destruct (Env.open_result w) as [[]|e]; cbn; rewrite ?Ef; cbn |]
    |];
    (split; [reflexivity|]); (split; [assumption|]);
    (split; [reflexivity || (symmetry; assumption) || assumption|]);
    (split; [intros H; try discriminate H; eexists; reflexivity
            |intros H; try discriminate H; reflexivity]).
Qed.

Section BatchCounts.

Import Env Load.

Lemma count_if_perm {A : Type} (p : A -> bool) (l l' : list A) :
  Permutation l l' -> count_if p l = count_if p l'.
Proof.
  unfold count_if. induction 1 as [|a l l' _ IH|a b l|l l' l'' _ IH1 _ IH2].
  - reflexivity.
  - cbn [List.filter]. destruct (p a); cbn [length]; lia.
  - cbn [List.filter]. destruct (p a), (p b); reflexivity.
  - lia.
Qed.

Lemma count_if_map {A B : Type} (p : B -> bool) (f : A -> B) (l : list A) :
  count_if p (List.map f l) = count_if (fun a => p (f a)) l.
Proof.
  unfold count_if. induction l as [|a l IH]; [reflexivity|].
  cbn [List.map List.filter]. destruct (p (f a)); cbn [length]; lia.
Qed.

Lemma count_if_ext {A : Type} (p q : A -> bool) (l : list A) :
  (forall a, p a = q a) -> count_if p l = count_if q l.
Proof.
  intros H. unfold count_if. induction l as [|a l IH]; [reflexivity|].
  cbn [List.filter]. rewrite <- H. destruct (p a); cbn [length]; lia.
Qed.

(** The first exception among the futures ends the comprehension. *)
Lemma collect_raises {A : Type} (futures : list (result A)) (e : exn) :
  In (Raise e) futures -> exists e', collect futures = Raise e'.
Proof.
  induction futures as [|[a|e0] futures IH]; intros H.
  - destruct H.
  - destruct H as [H|H]; [discriminate|].
    destruct (IH H) as [e' E]. exists e'. cbn [collect].
    unfold mbind, result_bind. now rewrite E.
  - exists e0. reflexivity.
Qed.

End BatchCounts.

(** X17. A request that fails does not end a concurrent batch: in a context
    with its logger and base URL, for every batch of at least one request,
    whatever each request meets (an answer of any status or an exception),
    the step returns; the success count is
    the number of request ids whose request was answered with a status 2xx;
    and every request that raised has an entry of its own with status 0, no
    success and the text of the exception. *)
Theorem concurrent_batch_survives_failures (pool : Load.Pool) (count : Z)
    (endpoint : string) (st : Env.St) :
  fair pool ->
  1 <= count ->
  is_Some (Env.logger (fst st)) ->
  is_Some (Env.ctx_base_url (fst st)) ->
  exists res st',
    Load.step_concurrent_requests_to_endpoint pool count endpoint st
    = (Ok res, st')
    /\ Load.success_count res
       = Load.count_if
           (fun id => match Load.fetch pool id with
                      | (Ok status, _) => Load.is_2xx status
                      | (Raise _, _) => false
                      end)
           (Load.request_ids count)
    /\ forall id e t,
         In id (Load.request_ids count) ->
         Load.fetch pool id = (Raise e, t) ->
         In (Load.mkRequestResult id 0 t false (Some (Env.exn_text e)))
           (Load.results res).
Proof.
  intros Hf Hc _ Hb.
  pose proof (Hf _ (List.map (Load.make_request pool)
                      (Load.request_ids count))) as Hp.
  assert (Hn : length (Load.as_completed pool _
                  (List.map (Load.make_request pool)
                     (Load.request_ids count))) <> 0%nat).
  { rewrite (Permutation_length Hp), length_map, request_ids_length. lia. }
  destruct (concurrent_requests_batch pool count endpoint st Hc Hb Hn)
    as (avg & st' & E).
  eexists. exists st'. split; [exact E|]. cbn [Load.success_count Load.results].
  split.
  - rewrite (count_if_perm _ _ _ Hp), count_if_map.
    apply count_if_ext. intros id. unfold Load.make_request.
    destruct (Load.fetch pool id) as [[s|e] t]; reflexivity.
  - intros id e t Hin Hfe.
    apply (Permutation_in _ (Permutation_sym Hp)).
    apply in_map_iff. exists id. split; [|exact Hin].
    unfold Load.make_request. now rewrite Hfe.
Qed.

(** X18. A request that fails ends a resource-creation batch: when one of
    the first ten items of the data set has no correlation id, or its
    request raises, the step raises and stores no result, whatever the
    other items get. The items after the tenth have no part in it. *)
Theorem resource_batch_aborts_on_failure (pool : Load.Pool)
    (data : list Load.DataItem) (st : Env.St) (d : Load.DataItem) (e : exn) :
  fair pool ->
  In d (firstn 10 data) ->
  Load.create_resource pool d = Raise e ->
  exists e' st',
    Load.step_create_multiple_resources pool (Some data) st = (Raise e', st').
Proof.
  intros Hf Hin Hd.
  destruct (create_multiple_resources_run pool data st) as (st1 & st2 & E & _).
  rewrite E.
  destruct (Load.ThreadPoolExecutor _) as [[]|e0]; [|eauto].
  destruct (Env.ctx_base_url (fst st1)); [|eauto].
  destruct (collect_raises
              (Load.as_completed pool _
                 (List.map (Load.create_resource pool) (firstn 10 data))) e)
    as [e' ->]; [|eauto].
  apply (Permutation_in _ (Permutation_sym (Hf _ _))).
  apply in_map_iff. exists d. split; assumption.
Qed.

(** * The health check *)
Section HealthLoop.

Import Urllib3.



End HealthLoop.


(** * Masking of secrets *)
Section MaskingStrings.

Import Masking.

Lemma length_repeat_char (c : ascii) (n : nat) :
  String.length (repeat_char c n) = n.
Proof. induction n as [|n IH]; [reflexivity|]. cbn. now rewrite IH. Qed.

Lemma get_repeat_char (c : ascii) (n i : nat) :
  (i < n)%nat -> String.get i (repeat_char c n) = Some c.
Proof.
  revert i. induction n as [|n IH]; intros [|i] H; try lia; [reflexivity|].
  cbn. apply IH. lia.
Qed.

Lemma length_substring (s : string) (n m : nat) :
  (n + m <= String.length s)%nat -> String.length (substring n m s) = m.
Proof.
  revert n m. induction s as [|ch s IH]; intros [|n] [|m] H; cbn in *;
    try reflexivity; try lia.
  - f_equal. apply (IH 0%nat). lia.
  - apply IH. lia.
  - apply IH. lia.
Qed.

Lemma substring_all (s : string) : substring 0 (String.length s) s = s.
Proof. induction s as [|ch s IH]; [reflexivity|]. cbn. now rewrite IH. Qed.

(** The slice [s[-k:]] for [0 < k < len(s)] is the last [k] characters. *)
Lemma slice_from_suffix (s : string) (k : Z) :
  0 < k < Z.of_nat (String.length s) ->
  slice_from s (- k)
  = substring (String.length s - Z.to_nat k) (Z.to_nat k) s.
Proof.
  intros H. unfold slice_from.
  destruct (- k <? 0) eqn:E; [|apply Z.ltb_ge in E; lia].
  f_equal; lia.
Qed.

(** The slice [s[-k:]] for [k >= len(s)], [k > 0], is the whole string. *)
Lemma slice_from_whole (s : string) (k : Z) :
  0 < k -> Z.of_nat (String.length s) <= k -> slice_from s (- k) = s.
Proof.
  intros H0 H. unfold slice_from.
  destruct (- k <? 0) eqn:E; [|apply Z.ltb_ge in E; lia].
  replace (Z.max (Z.of_nat (String.length s) + - k) 0) with 0 by lia.
  rewrite Z.sub_0_r, Nat2Z.id. apply substring_all.
Qed.

Lemma eqb_empty_length (s : string) :
  (0 < String.length s)%nat -> String.eqb s "" = false.
Proof. destruct s; cbn; [lia|reflexivity]. Qed.

End MaskingStrings.

(** X20. [mask_sensitive_value] shows the last characters only: for a mask
    length k of at least 1 and a value longer than k, the result has the
    length of the value, every character but the last k is a star, and the
    last k characters are those of the value. A value of at most k
    characters (the empty one included) gives four stars, whatever it
    is. *)
Theorem mask_sensitive_value_shows_suffix (value : string) (mask_length : Z) :
  1 <= mask_length ->
  let out := Masking.mask_sensitive_value value mask_length in
  let len := String.length value in
  (Z.of_nat len <= mask_length -> out = "****")
  /\ (mask_length < Z.of_nat len ->
      String.length out = len
      /\ (forall i, (i < len - Z.to_nat mask_length)%nat ->
            String.get i out = Some "*"%char)
      /\ (forall i, (len - Z.to_nat mask_length <= i < len)%nat ->
            String.get i out = String.get i value)).
Proof.
  intros Hk out len. subst out len. unfold Masking.mask_sensitive_value.
  split.
  - intros H. apply Z.leb_le in H. rewrite H. now rewrite orb_true_r.
  - intros H. rewrite eqb_empty_length by lia.
    destruct (_ <=? mask_length) eqn:E; [apply Z.leb_le in E; lia|].
    cbn [orb]. rewrite slice_from_suffix by lia. unfold Masking.str_mul.
    replace (Z.to_nat (Z.of_nat (String.length value) - mask_length))
      with (String.length value - Z.to_nat mask_length)%nat by lia.
    set (n := (String.length value - Z.to_nat mask_length)%nat).
    set (k := Z.to_nat mask_length).
    assert (Hn : (n + k = String.length value)%nat) by (subst n k; lia).
    split; [|split].
    + rewrite length_string_app, length_repeat_char, length_substring; lia.
    + intros i Hi.
      rewrite <- append_correct1 by (rewrite length_repeat_char; exact Hi).
      now apply get_repeat_char.
    + intros i Hi.
      replace i with ((i - n) + String.length (Masking.repeat_char "*" n))%nat
        at 1 by (rewrite length_repeat_char; lia).
      rewrite <- append_correct2.
      rewrite substring_correct1 by lia.
      f_equal. lia.
Qed.

(** X21. The token in the log of [before_all] and the masking helper: for a
    token of more than four characters the hook logs what
    [mask_sensitive_value] gives, stars and the last four characters. For a
    token of at most four characters the helper gives four stars, but the
    hook's own expression has no such guard and logs the token itself, in
    full. *)
Theorem auth_token_log_versus_mask (auth_token : string) :
  ((4 < String.length auth_token)%nat ->
   Masking.auth_token_log auth_token
   = Masking.mask_sensitive_value auth_token 4)
  /\ ((String.length auth_token <= 4)%nat ->
      Masking.auth_token_log auth_token = auth_token
      /\ Masking.mask_sensitive_value auth_token 4 = "****").
Proof.
  unfold Masking.auth_token_log, Masking.mask_sensitive_value. split.
  - intros H. rewrite eqb_empty_length by lia.
    destruct (_ <=? 4) eqn:E; [apply Z.leb_le in E; lia|]. reflexivity.
  - intros H. split.
    + change (-4) with (- (4)). rewrite slice_from_whole by lia.
      unfold Masking.str_mul.
      replace (Z.to_nat (Z.of_nat (String.length auth_token) - 4))
        with 0%nat by lia.
      reflexivity.
    + destruct (_ <=? 4) eqn:E; [|apply Z.leb_gt in E; lia].
      now rewrite orb_true_r.
Qed.

(** * The further properties at the sample inputs *)

(** X2 at the example client: a GET answered 200 is tracked. *)
Lemma successful_call_is_tracked_witness :
  no_redirect
    (serve (always 200)
       (Api.wire_request example_client "GET" "/accounts" Api.no_kwargs))
  /\ exists o,
       Api._make_request example_client (always 200) "GET" "/accounts"
         Api.no_kwargs = Some o
       /\ Api.value o = Ok (response_with 200)
       /\ Api.last_response (Api.client o) = Some (response_with 200)
       /\ Api.last_response_time (Api.client o) = Some (1 # 10)
       /\ exists j, Api.wire_attempts o = S j.
Proof.
  assert (N : no_redirect
                (serve (always 200)
                   (Api.wire_request example_client "GET" "/accounts"
                      Api.no_kwargs))).
  { intros i resp H. injection H as <-. reflexivity. }
  split; [exact N|].
  destruct (make_request_returns example_client (always 200) "GET" "/accounts"
              Api.no_kwargs) as [o Ho].
  assert (V : Api.value o = Ok (response_with 200)).
  { rewrite make_request_loop in Ho. vm_compute in Ho. injection Ho as <-.
    reflexivity. }
  exists o. split; [exact Ho|]. split; [exact V|].
  destruct (successful_call_is_tracked example_client (always 200) "GET"
              "/accounts" Api.no_kwargs o (response_with 200) Ho V)
    as [Hc Hj].
  destruct (Hj N) as (j & Hj' & _).
  rewrite Hc. split; [reflexivity|]. split; [reflexivity|]. eauto.
Defined.

(** X5 for a client whose last response is a 404. *)
Lemma assert_status_code_passes_iff_witness :
  400 <= 404 < 600
  /\ exists msg,
       Checks.assert_status_code
         (Api.set_last_response example_client (response_with 404) (1 # 10))
         404
       = Raise (AssertionError msg).
Proof.
  split; [lia|].
  apply (proj2 (assert_status_code_passes_iff
                  (Api.set_last_response example_client (response_with 404)
                     (1 # 10)) 404)).
  lia.
Defined.

(** X8 at the example client: an account fetched through the delegating
    client. *)
Lemma delegated_call_tracking_witness :
  exists d,
    Facade.get_account example_facade (always 200) "ACC001" = Some d
    /\ Facade.answer d = Ok (response_with 200)
    /\ Api.last_response (Facade.self (Facade.after d))
       = Some (response_with 200).
Proof.
  assert (E : exists d,
             Facade.get_account example_facade (always 200) "ACC001" = Some d
             /\ Facade.answer d = Ok (response_with 200)).
  { unfold Facade.get_account, Facade.accounts_get_account, Api.get,
      Facade.accounts_endpoint_base.
    cbn [Api.dict_truthy].
    destruct (make_request_returns (Facade.accounts example_facade)
                (always 200) "GET" ("/accounts" +:+ "/" +:+ "ACC001")
                Api.no_kwargs) as [o Ho].
    rewrite Ho.
    assert (V : Api.value o = Ok (response_with 200)).
    { rewrite make_request_loop in Ho. vm_compute in Ho. injection Ho as <-.
      reflexivity. }
    rewrite V. eexists. split; reflexivity. }
  destruct E as (d & Hd & Ha). exists d. split; [exact Hd|].
  split; [exact Ha|].
  destruct delegated_call_tracking as [H _].
  destruct (H example_facade (always 200) "ACC001" d Hd) as [Hok _].
  apply (Hok (response_with 200) Ha).
Defined.

(** X6 for a client whose last call took no measurable time. *)
Lemma assert_response_time_under_zero_is_missing_witness :
  (exists t,
     Api.last_response_time
       (Api.set_last_response example_client (response_with 200) 0)
     = Some t /\ (t == 0)%Q)
  /\ exists msg,
       Checks.assert_response_time_under
         (Api.set_last_response example_client (response_with 200) 0) 500
       = Raise (AssertionError msg).
Proof.
  assert (Z0 : exists t,
            Api.last_response_time
              (Api.set_last_response example_client (response_with 200) 0)
            = Some t /\ (t == 0)%Q).
  { exists 0%Q. split; reflexivity. }
  split; [exact Z0|].
  apply (proj1 (assert_response_time_under_zero_is_missing
                  (Api.set_last_response example_client (response_with 200) 0)
                  500)).
  right. exact Z0.
Defined.

(** X9 for a scenario name with a colon, a dot and a slash. *)
Lemma safe_scenario_name_is_safe_witness :
  forallb (fun ch => (nat_of_ascii ch <? 128)%nat)
    (list_ascii_of_string "Create account: v1.0/beta") = true
  /\ String.length (Env.safe_scenario_name "Create account: v1.0/beta")
     = 25%nat.
Proof.
  split; [reflexivity|].
  destruct (safe_scenario_name_is_safe "Create account: v1.0/beta" eq_refl)
    as [H _].
  rewrite H. reflexivity.
Defined.

(** X10 for the response of the sample server. *)
Lemma api_response_body_is_bounded_witness :
  Env.read_api_response (Env.of_response (response_with 200))
  = Ok (Env.mkApiResponse 200 ∅ "https://api.example.test/accounts" "")
  /\ (String.length
        (Env.ar_body
           (Env.mkApiResponse 200 ∅ "https://api.example.test/accounts" ""))
      <= 2003)%nat.
Proof.
  assert (E : Env.read_api_response (Env.of_response (response_with 200))
              = Ok (Env.mkApiResponse 200 ∅
                      "https://api.example.test/accounts" ""))
    by reflexivity.
  split; [exact E|].
  destruct (api_response_body_is_bounded _ _ E) as (t & _ & _ & _ & _ & H & _).
  exact H.
Defined.

(** X11 for a scenario that failed on a 404. *)
Lemma error_response_is_left_out_witness :
  Env.response
    (Env.set_response example_context
       (Some (Env.of_response (response_with 404))))
  = Some (Env.of_response (response_with 404))
  /\ 400 <= status_code (response_with 404) < 600
  /\ Env.fd_api_response
       (Env.failure_details
          (Env.set_response example_context
             (Some (Env.of_response (response_with 404))))
          (example_scenario Env.failed) 1000 1 example_world)
     = None.
Proof.
  split; [reflexivity|]. split; [cbn; lia|].
  destruct (error_response_is_left_out
              (Env.set_response example_context
                 (Some (Env.of_response (response_with 404))))
              (example_scenario Env.failed) 1000 1 example_world
              (response_with 404) eq_refl) as [H _].
  apply H. cbn. lia.
Defined.

(** X12 in the working directory that cannot be written. *)
Lemma unwritten_report_is_not_listed_witness :
  Env.makedirs_result unwritable_world = Ok tt
  /\ Env.logger example_context = Some []
  /\ Env.open_result unwritable_world = Raise (OSError "read-only file system")
  /\ Env.failure_files
       (fst (snd (Env.capture_failure_details (example_scenario Env.failed)
                    1000 1 (example_context, unwritable_world))))
     = None.
Proof.
  split; [reflexivity|]. split; [reflexivity|]. split; [reflexivity|].
  destruct (unwritten_report_is_not_listed example_context unwritable_world
              (example_scenario Env.failed) 1000 1 []
              (OSError "read-only file system") eq_refl eq_refl eq_refl)
    as (_ & _ & H & _).
  exact H.
Defined.



(** X15 at the example context. *)
Lemma reset_forgets_scenario_timings_witness :
  Env.logger example_context = Some []
  /\ Env.scenario_metrics
       (fst (snd (Steps.step_reset_environment
                    (example_context, example_world))))
     = Some (Env.fresh_scenario_metrics 1000)
  /\ Env.test_metrics
       (fst (snd (Steps.step_reset_environment
                    (example_context, example_world))))
     = Some (Env.fresh_test_metrics 990).
Proof.
  split; [reflexivity|].
  destruct (reset_forgets_scenario_timings example_context example_world []
              eq_refl) as (_ & _ & _ & _ & H1 & _ & H2 & _).
  split; [exact H2|exact H1].
Defined.

(** X16 at the end of a run with one failed scenario. *)
Lemma after_all_writes_summary_iff_witness :
  Env.test_metrics closing_context = Some (Env.mkTestMetrics 990 1 0 1 0 0 0)
  /\ Env.logger closing_context = Some []
  /\ fst (Env.after_all (closing_context, example_world)) = Ok tt
  /\ exists content,
       Env.files (snd (snd (Env.after_all (closing_context, example_world))))
       = <[Env.summary_file_name example_world := content]>
           (Env.files example_world).
Proof.
  split; [reflexivity|]. split; [reflexivity|].
  destruct (after_all_writes_summary_iff closing_context example_world
              (Env.mkTestMetrics 990 1 0 1 0 0 0) [] eq_refl eq_refl)
    as (H1 & _ & _ & H2 & _).
  split; [exact H1|]. apply H2. reflexivity.
Defined.

(** X17 for three concurrent requests that all fail to connect. *)
Lemma concurrent_batch_survives_failures_witness :
  fair failing_pool
  /\ 1 <= 3
  /\ is_Some (Env.logger (fst (example_context, example_world)))
  /\ is_Some (Env.ctx_base_url (fst (example_context, example_world)))
  /\ exists res st',
       Load.step_concurrent_requests_to_endpoint failing_pool 3 "/health"
         (example_context, example_world) = (Ok res, st')
       /\ Load.success_count res = 0.
Proof.
  assert (F : fair failing_pool) by (intros A l; apply Permutation_refl).
  split; [exact F|]. split; [lia|].
  assert (B : is_Some (Env.ctx_base_url (fst (example_context, example_world))))
    by (eexists; reflexivity).
  assert (L : is_Some (Env.logger (fst (example_context, example_world))))
    by (eexists; reflexivity).
  split; [exact L|]. split; [exact B|].
  destruct (concurrent_batch_survives_failures failing_pool 3 "/health"
              (example_context, example_world) F ltac:(lia) L B)
    as (res & st' & E & Hs & _).
  exists res, st'. split; [exact E|]. rewrite Hs. reflexivity.
Defined.

(** X18 for a data set whose only item fails to connect. *)
Lemma resource_batch_aborts_on_failure_witness :
  fair failing_pool
  /\ In example_item (firstn 10 [example_item])
  /\ Load.create_resource failing_pool example_item = Raise ConnectionError
  /\ exists e' st',
       Load.step_create_multiple_resources failing_pool (Some [example_item])
         (example_context, example_world) = (Raise e', st').
Proof.
  assert (F : fair failing_pool) by (intros A l; apply Permutation_refl).
  split; [exact F|]. split; [left; reflexivity|]. split; [reflexivity|].
  apply (resource_batch_aborts_on_failure failing_pool [example_item]
           (example_context, example_world) example_item ConnectionError F);
    [left; reflexivity|reflexivity].
Defined.


(** X20 for the default token and the default mask length. *)
Lemma mask_sensitive_value_shows_suffix_witness :
  1 <= 4
  /\ 4 < Z.of_nat (String.length "banking-api-key-2024")
  /\ String.length (Masking.mask_sensitive_value "banking-api-key-2024" 4)
     = 20%nat.
Proof.
  split; [lia|]. split; [cbn; lia|].
  destruct (mask_sensitive_value_shows_suffix "banking-api-key-2024" 4
              ltac:(lia)) as [_ H].
  destruct H as [H _]; [cbn; lia|]. exact H.
Defined.

(** X21 for a token of three characters. *)
Lemma auth_token_log_versus_mask_witness :
  (String.length "abc" <= 4)%nat
  /\ Masking.auth_token_log "abc" = "abc"
  /\ Masking.mask_sensitive_value "abc" 4 = "****".
Proof.
  split; [cbn; lia|].
  apply (proj2 (auth_token_log_versus_mask "abc")). cbn. lia.
Defined.
